(** * Style2Vec: the sample generator, the model wrapper and the training script

    A shallow embedding of [style2vec/models/style2vecbeta.py].

    The Python program draws random numbers, reads files, prints and raises
    exceptions.  All of that is made explicit here: a computation is a
    function from a [World] (the random tape still to be consumed, the file
    system, the clock, and the log of input/output performed so far) to an
    [outcome].  Every method of the two classes becomes a function in that
    monad which takes the object and returns the updated object. *)

From stdpp Require Import base decidable option list numbers strings gmap pretty.
From Stdlib Require Import ZArith Lia.

Open Scope string_scope.
Open Scope list_scope.
Open Scope Z_scope.

(** ** Python values that the program handles *)

(** An item record of the dataset is a JSON object; only the key
    ["ImagePath"] is ever read.  Python compares two such dictionaries key by
    key, which is the extensional equality of [gmap]. *)
Abbreviation Item := (gmap string string).

(** An outfit record: [outfit["SetId"]] and [outfit["Items"]]. *)
Record Outfit := mkOutfit {
  SetId : Z;
  Items : list Item
}.

(** The items of [self.data] are objects: two of them can be equal as
    dictionaries and still be different objects, sitting in different
    outfits.  A reference to an item therefore records where the object
    lives in [self.data] (the outfit's position, the position inside
    [Items]) next to its value. *)
Record ItemRef := mkRef {
  at_outfit : nat;
  at_pos : nat;
  value : Item
}.

#[global] Instance Outfit_eq_dec : EqDecision Outfit.
Proof. solve_decision. Defined.
#[global] Instance ItemRef_eq_dec : EqDecision ItemRef.
Proof. solve_decision. Defined.

(** A sample is the tuple [((item, context), label)]. *)
Abbreviation Couple := (ItemRef * ItemRef)%type.
Abbreviation Sample := (Couple * Z)%type.

Definition target (s : Sample) : ItemRef := fst (fst s).
Definition context (s : Sample) : ItemRef := snd (fst s).
Definition label (s : Sample) : Z := snd s.

(** What [prep_item] returns: the preprocessed 299 x 299 x 3 array of an
    image, kept as its flattened list of entries. *)
Inductive Tensor := Image (entries : list Z).

#[global] Instance Tensor_eq_dec : EqDecision Tensor.
Proof. solve_decision. Defined.

(** ** Exceptions *)

(** The classes of the exceptions the program can raise.  The first group
    are Python's own.  [ConfigurationError] and [InsufficientDataError] are
    classes that the specification names; no statement of the program
    constructs them. *)
Inductive ExnClass :=
  | ValueError | IndexError | KeyError | TypeError | ZeroDivisionError
  | OSError | JSONDecodeError | AttributeError | RuntimeError
  | ConfigurationError | InsufficientDataError.

#[global] Instance ExnClass_eq_dec : EqDecision ExnClass.
Proof. solve_decision. Defined.

(** An exception object: its class and the text that [str(e)] gives. *)
Record Exn := mkExn { exn_class : ExnClass; exn_message : string }.

#[global] Instance Exn_eq_dec : EqDecision Exn.
Proof. solve_decision. Defined.

(** ** The world *)

(** What [json.load(open(path))] finds. *)
Inductive DatasetFile :=
  | NoSuchFile
  | NotJson
  | Json (outfits : list Outfit).

(** Input and output that the program performs, in the order performed. *)
Inductive Event :=
  | OpenRead (path : string)
  | Print (text : string)
  | LoadImage (path : string)
  | LoadPretrained (weights : string)
  | SaveModel (path : string)
  | WriteFile (path : string) (lines : list string).

#[global] Instance Event_eq_dec : EqDecision Event.
Proof. solve_decision. Defined.

(** A layer of a Keras model, as far as the program touches it: [_name]
    and [trainable]. *)
Record Layer := mkLayer { layer_name : string; trainable : bool }.

#[global] Instance Layer_eq_dec : EqDecision Layer.
Proof. solve_decision. Defined.

Record World := mkWorld {
  tape : list nat;                      (* raw random numbers still to come *)
  clock : option (list Z);              (* readings of time.clock(), if it exists *)
  now : string;                         (* datetime.now() as formatted at import *)
  files : string -> DatasetFile;        (* the dataset files *)
  images : string -> option Tensor;     (* image files, decoded and preprocessed *)
  writable : string -> bool;            (* whether a path can be written *)
  pretrained : option (list Layer);     (* InceptionV3 with its imagenet weights *)
  gpus : nat;                           (* devices that multi_gpu_model finds *)
  training : option Exn;                (* what Keras' training loop ends with *)
  io : list Event                       (* input/output so far, oldest first *)
}.

Definition with_tape (t : list nat) (w : World) : World :=
  mkWorld t (clock w) (now w) (files w) (images w) (writable w)
    (pretrained w) (gpus w) (training w) (io w).
Definition with_clock (c : list Z) (w : World) : World :=
  mkWorld (tape w) (Some c) (now w) (files w) (images w) (writable w)
    (pretrained w) (gpus w) (training w) (io w).
Definition log (e : Event) (w : World) : World :=
  mkWorld (tape w) (clock w) (now w) (files w) (images w) (writable w)
    (pretrained w) (gpus w) (training w) (io w ++ [e]).

(** ** The monad *)

(** A computation finishes with a value, or raises, or asks for more random
    numbers (or clock readings) than the world holds.  A Python loop that
    never ends shows as [Starved] on every tape, however long. *)
Inductive outcome (A : Type) :=
  | Done (a : A) (w : World)
  | Raised (e : Exn) (w : World)
  | Starved.
Arguments Done {A} a w.
Arguments Raised {A} e w.
Arguments Starved {A}.

Definition M (A : Type) : Type := World -> outcome A.

Definition ret {A} (a : A) : M A := fun w => Done a w.

Definition bind {A B} (m : M A) (k : A -> M B) : M B :=
  fun w => match m w with
           | Done a w' => k a w'
           | Raised e w' => Raised e w'
           | Starved => Starved
           end.

Definition raise {A} (c : ExnClass) (msg : string) : M A :=
  fun w => Raised (mkExn c msg) w.

(** [try: body except Exception as e: handler e]. *)
Definition try_except {A} (body : M A) (handler : Exn -> M A) : M A :=
  fun w => match body w with
           | Raised e w' => handler e w'
           | o => o
           end.

Definition emit (e : Event) : M unit := fun w => Done tt (log e w).

Declare Scope py_scope.
Delimit Scope py_scope with py.
Notation "x <- c1 ;; c2" := (bind c1 (fun x => c2))
  (at level 100, c1 at next level, right associativity) : py_scope.
Notation "c1 ;; c2" := (bind c1 (fun _ => c2))
  (at level 100, right associativity) : py_scope.
Open Scope py_scope.

(** [for x in l: body x], collecting what each round produces. *)
Fixpoint for_each {A B} (body : A -> M B) (l : list A) : M (list B) :=
  match l with
  | [] => ret []
  | x :: l' => b <- body x ;; bs <- for_each body l' ;; ret (b :: bs)
  end.

(** [enumerate(l)]. *)
Definition enumerate {A} (l : list A) : list (nat * A) := imap pair l.

(** [l[i]] for an index that is not negative. *)
Definition index {A} (l : list A) (i : nat) : M A :=
  match l !! i with
  | Some x => ret x
  | None => raise IndexError "list index out of range"
  end.

(** ** The [random] module *)

(** [random.randrange(n)]: an empty range raises before any bit is drawn;
    otherwise the next raw number of the tape is reduced below [n]. *)
Definition randrange (n : Z) : M Z :=
  fun w =>
    if n <=? 0 then Raised (mkExn ValueError "empty range for randrange()") w
    else match tape w with
         | [] => Starved
         | r :: t => Done (Z.of_nat r mod n) (with_tape t w)
         end.

(** [random.choice(seq)]. *)
Definition choice {A} (seq : list A) : M A :=
  match seq with
  | [] => raise IndexError "Cannot choose from an empty sequence"
  | _ => j <- randrange (Z.of_nat (length seq)) ;;
         match seq !! Z.to_nat j with
         | Some x => ret x
         | None => raise IndexError "list index out of range"
         end
  end.

(** [x[i], x[j] = x[j], x[i]]. *)
Definition swap {A} (x : list A) (i j : nat) : list A :=
  match x !! i, x !! j with
  | Some a, Some b => <[i := b]> (<[j := a]> x)
  | _, _ => x
  end.

(** [random.shuffle(x)]:
    [for i in reversed(range(1, len(x))): j = randbelow(i + 1); swap]. *)
Fixpoint shuffle_from {A} (i : nat) (x : list A) : M (list A) :=
  match i with
  | O => ret x
  | S i' => j <- randrange (Z.of_nat (S i)) ;;
            shuffle_from i' (swap x i (Z.to_nat j))
  end.
Definition shuffle {A} (x : list A) : M (list A) :=
  shuffle_from (length x - 1)%nat x.

(** Python's slice [l[:k]]. *)
Definition slice_to {A} (k : Z) (l : list A) : list A :=
  if k <? 0 then take (Z.to_nat (Z.of_nat (length l) + k)) l
  else take (Z.to_nat k) l.

(** ** class SamplesGenerator *)

Record SamplesGenerator := mkGenerator {
  outfits_count_limit : Z;
  samples_count_limit : Z;
  batch_size : Z;
  neg_sample_count : Z;
  images_path : string;
  dataset_path : string;
  underlying_model : string;
  data : option (list Outfit);
  steps_per_epoch : option Z;
  samples : option (list Couple * list Z)
}.

Definition set_data (d : list Outfit) (g : SamplesGenerator) : SamplesGenerator :=
  mkGenerator (outfits_count_limit g) (samples_count_limit g) (batch_size g)
    (neg_sample_count g) (images_path g) (dataset_path g) (underlying_model g)
    (Some d) (steps_per_epoch g) (samples g).

Definition set_steps_per_epoch (n : Z) (g : SamplesGenerator) : SamplesGenerator :=
  mkGenerator (outfits_count_limit g) (samples_count_limit g) (batch_size g)
    (neg_sample_count g) (images_path g) (dataset_path g) (underlying_model g)
    (data g) (Some n) (samples g).

Definition set_samples (s : list Couple * list Z) (g : SamplesGenerator)
  : SamplesGenerator :=
  mkGenerator (outfits_count_limit g) (samples_count_limit g) (batch_size g)
    (neg_sample_count g) (images_path g) (dataset_path g) (underlying_model g)
    (data g) (steps_per_epoch g) (Some s).

(** [SamplesGenerator.__init__], with the defaults of its signature filled
    in by the caller. *)
Definition SamplesGenerator_init (dataset_path images_path : string)
    (neg_sample_count batch_size : Z) (underlying_model : string)
    (outfits_count_limit samples_count_limit : Z) : M SamplesGenerator :=
  let self := mkGenerator outfits_count_limit samples_count_limit batch_size
                neg_sample_count images_path dataset_path underlying_model
                None None None in
  if bool_decide (underlying_model ≠ "inception")
  then raise ValueError "Invalid underlying model"
  else ret self.

(** The defaults of the signature. *)
Definition default_neg_sample_count : Z := 5.
Definition default_batch_size : Z := 10.
Definition default_underlying_model : string := "inception".
Definition default_count_limit : Z := -1.

(** [SamplesGenerator.collect_data]. *)
Definition collect_data (self : SamplesGenerator) : M SamplesGenerator :=
  emit (OpenRead (dataset_path self)) ;;
  fun w =>
    match files w (dataset_path self) with
    | NoSuchFile => Raised (mkExn OSError "No such file or directory") w
    | NotJson => Raised (mkExn JSONDecodeError "Expecting value") w
    | Json loaded =>
        let d :=
          if bool_decide (outfits_count_limit self ≠ -1)
             && (outfits_count_limit self <? Z.of_nat (length loaded))
          then slice_to (outfits_count_limit self) loaded
          else loaded in
        (emit (Print ("Dataset has been successfully loaded ("
                      +:+ pretty (length d) +:+ " outfits).")) ;;
         ret (set_data d self)) w
    end.

(** The item objects of the outfit at position [k] of [self.data]. *)
Definition item_refs (k : nat) (outfit : Outfit) : list ItemRef :=
  imap (mkRef k) (Items outfit).

(** The loop [for context in outfit["Items"]: if item != context: ...];
    [!=] on two dictionaries compares their contents. *)
Definition positive_samples (item : ItemRef) (items : list ItemRef) : list Sample :=
  flat_map (fun context =>
              if bool_decide (value item ≠ value context)
              then [((item, context), 1)] else []) items.

(** The loop [while True: neg_outfit_index = random.randrange(n);
    if neg_outfit_index != outfit["SetId"]: break], by recursion on the
    random numbers that are left. *)
Fixpoint retry_outfit_index (n set_id : Z) (t : list nat) (w : World) : outcome Z :=
  if n <=? 0 then Raised (mkExn ValueError "empty range for randrange()") w
  else match t with
       | [] => Starved
       | r :: t' =>
           let neg_outfit_index := Z.of_nat r mod n in
           if bool_decide (neg_outfit_index ≠ set_id)
           then Done neg_outfit_index (with_tape t' w)
           else retry_outfit_index n set_id t' w
       end.

Definition draw_outfit_index (n set_id : Z) : M Z :=
  fun w => retry_outfit_index n set_id (tape w) w.

(** One round of [for i in range(self.neg_sample_count)]. *)
Definition negative_sample (d : list Outfit) (outfit : Outfit) (item : ItemRef)
  : M Sample :=
  neg_outfit_index <- draw_outfit_index (Z.of_nat (length d) - 1) (SetId outfit) ;;
  neg_outfit <- index d (Z.to_nat neg_outfit_index) ;;
  neg_item <- choice (item_refs (Z.to_nat neg_outfit_index) neg_outfit) ;;
  ret ((item, neg_item), 0).

(** The body of [for item in outfit["Items"]]. *)
Definition samples_of_item (d : list Outfit) (neg : Z) (outfit : Outfit)
    (items : list ItemRef) (item : ItemRef) : M (list Sample) :=
  negatives <- for_each (fun _ => negative_sample d outfit item)
                        (seq 0 (Z.to_nat neg)) ;;
  ret (positive_samples item items ++ negatives).

(** The body of [for outfit in self.data]. *)
Definition samples_of_outfit (d : list Outfit) (neg : Z) (ko : nat * Outfit)
  : M (list Sample) :=
  let items := item_refs (fst ko) (snd ko) in
  per_item <- for_each (samples_of_item d neg (snd ko) items) items ;;
  ret (mjoin per_item).

(** The three nested loops of [generate_samples]: the list [samples] as it
    is just before [random.shuffle]. *)
Definition build_samples (d : list Outfit) (neg : Z) : M (list Sample) :=
  per_outfit <- for_each (samples_of_outfit d neg) (enumerate d) ;;
  ret (mjoin per_outfit).

(** [couples, labels = zip] of the unpacked [samples]: the transposition of
    the list of pairs, assigned to two names. *)
Definition unzip_samples (s : list Sample) : M (list Couple * list Z) :=
  match s with
  | [] => raise ValueError "not enough values to unpack (expected 2, got 0)"
  | _ => ret (map fst s, map snd s)
  end.

(** [math.floor(len(samples) / self.batch_size)].  The quotient of the two
    integers is taken in floating point and then floored; for a list length
    that is the floor of the exact quotient, [Z.div]. *)
Definition floor_div (n b : Z) : M Z :=
  if b =? 0 then raise ZeroDivisionError "division by zero" else ret (n / b).

(** [SamplesGenerator.generate_samples]. *)
Definition generate_samples (self : SamplesGenerator) : M SamplesGenerator :=
  self <- match data self with
          | None => collect_data self
          | Some _ => ret self
          end ;;
  d <- match data self with
       | Some d => ret d
       | None => raise TypeError "'NoneType' object is not iterable"
       end ;;
  built <- build_samples d (neg_sample_count self) ;;
  shuffled <- shuffle built ;;
  let samples :=
    if bool_decide (samples_count_limit self ≠ -1)
       && (samples_count_limit self <? Z.of_nat (length shuffled))
    then slice_to (samples_count_limit self) shuffled
    else shuffled in
  steps <- floor_div (Z.of_nat (length samples)) (batch_size self) ;;
  let self := set_steps_per_epoch steps self in
  unzipped <- unzip_samples samples ;;
  let self := set_samples unzipped self in
  emit (Print (pretty (length samples) +:+ " samples generated.")) ;;
  ret self.

(** [SamplesGenerator.prep_item]. *)
Definition prep_item (self : SamplesGenerator) (item : ItemRef) : M Tensor :=
  if bool_decide (underlying_model self = "inception") then
    match value item !! "ImagePath" with
    | None => raise KeyError "'ImagePath'"
    | Some image_path =>
        let path := images_path self +:+ image_path in
        emit (LoadImage path) ;;
        fun w => match images w path with
                 | Some x => Done x w
                 | None => Raised (mkExn OSError "No such file or directory") w
                 end
    end
  else raise ValueError "Preprocessing not defined for this model".

(** What [generate_batches] yields:
    [([np.array(batched_targets), np.array(batched_contexts)],
      np.array(batched_labels))]. *)
Record Batch := mkBatch {
  batched_targets : list Tensor;
  batched_contexts : list Tensor;
  batched_labels : list Z
}.

#[global] Instance Batch_eq_dec : EqDecision Batch.
Proof. solve_decision. Defined.

Definition empty_batch : Batch := mkBatch [] [] [].

(** The loop [for i, target in enumerate(target_items)] of
    [generate_batches] together with the [if current_size > 0] that follows
    it; the result lists the batches in the order they are yielded. *)
Fixpoint batch_loop (self : SamplesGenerator)
    (context_items : list ItemRef) (labels : list Z)
    (rest : list (nat * ItemRef)) (current_size : Z) (batched : Batch)
  : M (list Batch) :=
  match rest with
  | [] => ret (if 0 <? current_size then [batched] else [])
  | (i, target) :: rest' =>
      if current_size <? batch_size self then
        t <- prep_item self target ;;
        context <- index context_items i ;;
        c <- prep_item self context ;;
        l <- index labels i ;;
        batch_loop self context_items labels rest' (current_size + 1)
          (mkBatch (batched_targets batched ++ [t])
                   (batched_contexts batched ++ [c])
                   (batched_labels batched ++ [l]))
      else
        later <- batch_loop self context_items labels rest' 0 empty_batch ;;
        ret (batched :: later)
  end.

(** [item_target, item_context = zip] of the unpacked [couples]. *)
Definition unzip_couples (couples : list Couple) : M (list ItemRef * list ItemRef) :=
  match couples with
  | [] => raise ValueError "not enough values to unpack (expected 2, got 0)"
  | _ => ret (map fst couples, map snd couples)
  end.

(** One round of the [while True] of [generate_batches]: the generator
    after the round and the batches yielded during it. *)
Definition epoch_pass (self : SamplesGenerator) : M (SamplesGenerator * list Batch) :=
  self <- generate_samples self ;;
  match samples self with
  | None => raise TypeError "cannot unpack non-iterable NoneType object"
  | Some (couples, labels) =>
      tc <- unzip_couples couples ;;
      yielded <- batch_loop self (snd tc) labels (enumerate (fst tc)) 0 empty_batch ;;
      ret (self, yielded)
  end.


(** ** class Style2Vec *)

(** The values of the hyperparameter dictionary and Python's truth value of
    each. *)
Inductive HValue := HInt (n : Z) | HStr (s : string) | HBool (b : bool).

Definition truthy (v : HValue) : bool :=
  match v with
  | HInt n => negb (n =? 0)
  | HStr s => negb (bool_decide (s = ""))
  | HBool b => b
  end.

(** The keys [HP_OPTIMIZER], [HP_BATCH_SIZE], [HP_NEGATIVE_SAMPLES] and
    [HP_FINE_TUNE], by the names given to [hp.HParam]. *)
Definition HP_OPTIMIZER : string := "optimizer".
Definition HP_BATCH_SIZE : string := "batch_size".
Definition HP_NEGATIVE_SAMPLES : string := "negative_samples".
Definition HP_FINE_TUNE : string := "fine_tune".

Abbreviation Hparams := (gmap string HValue).

(** [hparams[key]] for the constructor's argument [hparams], [None] by
    default. *)
Definition subscript (hparams : option Hparams) (key : string) : M HValue :=
  match hparams with
  | None => raise TypeError "'NoneType' object is not subscriptable"
  | Some h => match h !! key with
              | Some v => ret v
              | None => raise KeyError key
              end
  end.

Record Style2Vec := mkStyle2Vec {
  hparams : option Hparams;
  epochs_count : Z;
  history : bool;                       (* whether [fit] has stored a history *)
  model_target : list Layer;
  model_context : list Layer;
  generator : SamplesGenerator
}.

Definition set_generator (g : SamplesGenerator) (m : Style2Vec) : Style2Vec :=
  mkStyle2Vec (hparams m) (epochs_count m) (history m) (model_target m)
    (model_context m) g.
Definition set_history (m : Style2Vec) : Style2Vec :=
  mkStyle2Vec (hparams m) (epochs_count m) true (model_target m)
    (model_context m) (generator m).

(** [tf.keras.applications.inception_v3.InceptionV3(weights='imagenet', ...)]. *)
Definition InceptionV3 : M (list Layer) :=
  emit (LoadPretrained "imagenet") ;;
  fun w => match pretrained w with
           | Some layers => Done layers w
           | None => Raised (mkExn OSError "cannot load the imagenet weights") w
           end.

(** The loop that renames the layers of a tower:
    [layer._name = prefix + str(i)], the last one [prefix + 'last_layer']. *)
Definition rename_layers (prefix : string) (layers : list Layer) : list Layer :=
  imap (fun i layer =>
          let named := mkLayer (prefix +:+ pretty i) (trainable layer) in
          if bool_decide (Z.of_nat i = Z.of_nat (length layers) - 1)
          then mkLayer (prefix +:+ "last_layer") (trainable named)
          else named) layers.

Definition set_trainable (b : bool) (layer : Layer) : Layer :=
  mkLayer (layer_name layer) b.

(** [for layer in layers[:249]: layer.trainable = False] and
    [for layer in layers[249:]: layer.trainable = True]. *)
Definition fine_tune_layers (layers : list Layer) : list Layer :=
  (set_trainable false <$> take 249 layers)
  ++ (set_trainable true <$> drop 249 layers).

(** [model.get_layer(name)]. *)
Definition get_layer (layers : list Layer) (name : string) : M Layer :=
  match filter (fun layer => layer_name layer = name) layers with
  | layer :: _ => ret layer
  | [] => raise ValueError ("No such layer: " +:+ name)
  end.

(** [tf.keras.utils.multi_gpu_model(model, gpus=2)]. *)
Definition multi_gpu_model (requested : nat) : M unit :=
  fun w => if (gpus w <? requested)%nat
           then Raised (mkExn ValueError "requested more GPUs than are available") w
           else Done tt w.

(** [Style2Vec.__init__]. *)
Definition Style2Vec_init (dataset_path images_path : string)
    (batch_size epochs_count : Z) (underlying_model : string)
    (outfits_count_limit samples_count_limit : Z) (hparams : option Hparams)
  : M Style2Vec :=
  model_target <- InceptionV3 ;;
  model_context <- InceptionV3 ;;
  let model_target := rename_layers "target_" model_target in
  let model_context := rename_layers "context_" model_context in
  fine_tune <- subscript hparams HP_FINE_TUNE ;;
  let model_target :=
    if truthy fine_tune then fine_tune_layers model_target else model_target in
  let model_context :=
    if truthy fine_tune then fine_tune_layers model_context else model_context in
  get_layer model_target "target_last_layer" ;;
  get_layer model_context "context_last_layer" ;;
  multi_gpu_model 2 ;;
  generator <- SamplesGenerator_init dataset_path images_path
                 default_neg_sample_count batch_size default_underlying_model
                 outfits_count_limit samples_count_limit ;;
  emit (Print "Style2Vec model has been successfully initialized.") ;;
  ret (mkStyle2Vec hparams epochs_count false model_target model_context generator).

(** [self.model.fit_generator(...)]: the training loop is Keras' own; how it
    ends is read from the world. *)
Definition fit_generator : M unit :=
  fun w => match training w with
           | Some e => Raised e w
           | None => Done tt w
           end.

(** [Style2Vec.fit]. *)
Definition fit (self : Style2Vec) : M Style2Vec :=
  emit (Print "Model fitting has started.") ;;
  g <- generate_samples (generator self) ;;
  let self := set_generator g self in
  fit_generator ;;
  ret (set_history self).

(** [Style2Vec.save]. *)
Definition save (self : Style2Vec) (model_filepath : string) : M unit :=
  fun w => if writable w model_filepath
           then Done tt (log (SaveModel model_filepath) w)
           else Raised (mkExn OSError "unable to create file") w.

(** [with open(path, "w+") as f:] followed by one [f.write] per line. *)
Definition write_file (path : string) (lines : list string) : M unit :=
  fun w => if writable w path
           then Done tt (log (WriteFile path lines) w)
           else Raised (mkExn OSError "No such file or directory") w.

(** [time.clock()]. *)
Definition time_clock : M Z :=
  fun w => match clock w with
           | None => Raised (mkExn AttributeError
                               "module 'time' has no attribute 'clock'") w
           | Some [] => Starved
           | Some (t :: later) => Done t (with_clock later w)
           end.

(** ** The statements at module level *)

Definition hyperparams : Hparams :=
  <[HP_BATCH_SIZE := HInt 5]>
  (<[HP_NEGATIVE_SAMPLES := HInt 6]>
  (<[HP_OPTIMIZER := HStr "adam"]>
  (<[HP_FINE_TUNE := HBool true]> ∅))).

(** The [try] block and its handler, for a model that has been built. *)
Definition train_and_save (model : Style2Vec) : M unit :=
  fun w =>
    let date := now w in
    try_except
      (start <- time_clock ;;
       fit model ;;
       end_ <- time_clock ;;
       save model ("logs/" +:+ date +:+ "/" +:+ "model" +:+ date +:+ ".h5") ;;
       write_file ("logs/" +:+ date +:+ "/meta.txt")
         ["batch 24, limit -1, adam, e 5, fine tune, neg 6
"; pretty (start - end_)] ;;
       emit (Print "Succesfully finished."))
      (fun e =>
         save model ("model" +:+ date +:+ "_err.h5") ;;
         write_file ("err" +:+ date +:+ ".txt") [exn_message e] ;;
         emit (Print "Exited with error."))
      w.

(** The integer that a hyperparameter holds. *)
Definition int_of (v : HValue) : Z :=
  match v with
  | HInt n => n
  | HBool b => if b then 1 else 0
  | HStr _ => 0
  end.

(** The whole script. *)
Definition main : M unit :=
  batch <- subscript (Some hyperparams) HP_BATCH_SIZE ;;
  model <- Style2Vec_init "../data/label/train_no_dup_out.json" "../data/images/"
             (int_of batch) 5 default_underlying_model
             50 default_count_limit (Some hyperparams) ;;
  train_and_save model.

(** The status with which the interpreter leaves the script. *)
Definition exit_status {A} (o : outcome A) : option Z :=
  match o with
  | Done _ _ => Some 0
  | Raised _ _ => Some 1
  | Starved => None
  end.

(** ** Vocabulary of the statements *)

(** [o] is an exception of class [c]. *)
Definition raises {A} (o : outcome A) (c : ExnClass) : Prop :=
  ∃ e w, o = Raised e w ∧ exn_class e = c.

(** The dataset that [generate_samples] works on: [self.data] if it is
    there, what [collect_data] loads otherwise. *)
Definition dataset_in_use (self : SamplesGenerator) (w : World)
  : option (list Outfit) :=
  match data self with
  | Some d => Some d
  | None => match collect_data self w with
            | Done self' _ => data self'
            | _ => None
            end
  end.

(** The samples of a generator, as the list of tuples they were unzipped
    from. *)
Definition sample_list (self : SamplesGenerator) : list Sample :=
  match samples self with
  | Some (couples, labels) => zip couples labels
  | None => []
  end.

(** A reference points into the dataset [d]. *)
Definition points_into (d : list Outfit) (r : ItemRef) : Prop :=
  ∃ outfit, d !! at_outfit r = Some outfit
            ∧ Items outfit !! at_pos r = Some (value r).

(** The positive samples whose target lies in the outfit at position [k],
    and the negative ones. *)
Definition positive_of (k : nat) (s : Sample) : Prop :=
  label s = 1 ∧ at_outfit (target s) = k.
Definition negative_of (k : nat) (s : Sample) : Prop :=
  label s = 0 ∧ at_outfit (target s) = k.

#[global] Instance positive_of_dec k s : Decision (positive_of k s).
Proof. unfold positive_of. apply _. Defined.
#[global] Instance negative_of_dec k s : Decision (negative_of k s).
Proof. unfold negative_of. apply _. Defined.

(** All ordered pairs of two different positions of the outfit at position
    [k], as positive samples. *)
Definition ordered_pairs (k : nat) (outfit : Outfit) : list Sample :=
  let items := item_refs k outfit in
  flat_map (fun a =>
              flat_map (fun b =>
                          if bool_decide (at_pos a ≠ at_pos b)
                          then [((a, b), 1)] else []) items) items.

(** Cutting a list into groups the way [batch_loop] does: an element goes
    into the open group while that holds fewer than [size] elements;
    otherwise the open group is closed and the element is left out. *)
Fixpoint chunks {A} (size : nat) (xs : list A) (open : list A) : list (list A) :=
  match xs with
  | [] => match open with [] => [] | _ => [open] end
  | x :: xs' =>
      if (length open <? size)%nat
      then chunks size xs' (open ++ [x])
      else open :: chunks size xs' []
  end.

(** The elements that end up in some group, [fill] being the number of
    elements in the open group. *)
Fixpoint survivors {A} (size : nat) (xs : list A) (fill : nat) : list A :=
  match xs with
  | [] => []
  | x :: xs' =>
      if (fill <? size)%nat
      then x :: survivors size xs' (S fill)
      else survivors size xs' 0%nat
  end.

(** The tensor that [prep_item] computes for an item, when it computes
    one. *)
Definition image_of (self : SamplesGenerator) (w : World) (item : ItemRef)
  : option Tensor :=
  if bool_decide (underlying_model self = "inception") then
    match value item !! "ImagePath" with
    | Some image_path => images w (images_path self +:+ image_path)
    | None => None
    end
  else None.

(** The batch [b] holds exactly the samples at the positions [group] of the
    generated samples, in that order. *)
Definition batch_of (self : SamplesGenerator) (w : World)
    (targets contexts : list ItemRef) (labels : list Z)
    (group : list nat) (b : Batch) : Prop :=
  Forall2 (fun i t => ∃ x, targets !! i = Some x ∧ image_of self w x = Some t)
          group (batched_targets b)
  ∧ Forall2 (fun i c => ∃ x, contexts !! i = Some x ∧ image_of self w x = Some c)
            group (batched_contexts b)
  ∧ Forall2 (fun i l => labels !! i = Some l) group (batched_labels b).

(** What one round of [for i in range(self.neg_sample_count)] appends for
    the item [item] of [outfit]: a sample labelled 0 whose context was drawn
    from an outfit at a position below [len(self.data) - 1] that differs
    from the number [outfit["SetId"]]. *)
Definition drawn_negative (d : list Outfit) (outfit : Outfit) (item : ItemRef)
    (s : Sample) : Prop :=
  target s = item ∧ label s = 0
  ∧ (S (at_outfit (context s)) < length d)%nat
  ∧ Z.of_nat (at_outfit (context s)) ≠ SetId outfit
  ∧ points_into d (context s).

(** What the body of [for item in outfit["Items"]] appends. *)
Definition item_block (d : list Outfit) (neg : Z) (outfit : Outfit)
    (items : list ItemRef) (item : ItemRef) (xs : list Sample) : Prop :=
  ∃ negatives, xs = positive_samples item items ++ negatives
    ∧ length negatives = Z.to_nat neg
    ∧ Forall (drawn_negative d outfit item) negatives.

(** What the body of [for outfit in self.data] appends. *)
Definition outfit_block (d : list Outfit) (neg : Z) (ko : nat * Outfit)
    (block : list Sample) : Prop :=
  ∃ per_item, block = mjoin per_item
    ∧ Forall2 (item_block d neg (snd ko) (item_refs (fst ko) (snd ko)))
              (item_refs (fst ko) (snd ko)) per_item.

(** The shape of the list [samples] just before it is shuffled. *)
Definition built_from (d : list Outfit) (neg : Z) (built : list Sample) : Prop :=
  ∃ per_outfit, built = mjoin per_outfit
    ∧ Forall2 (outfit_block d neg) (enumerate d) per_outfit.

(** The truncation to [samples_count_limit]. *)
Definition truncated (self : SamplesGenerator) (shuffled : list Sample)
  : list Sample :=
  if bool_decide (samples_count_limit self ≠ -1)
     && (samples_count_limit self <? Z.of_nat (length shuffled))
  then slice_to (samples_count_limit self) shuffled
  else shuffled.

(** The positive samples that the loops append for the outfit at position
    [k]. *)
Definition positives_of_outfit (k : nat) (outfit : Outfit) : list Sample :=
  flat_map (fun item => positive_samples item (item_refs k outfit))
           (item_refs k outfit).

(** The number of samples that the loops append for one outfit, and for the
    whole dataset. *)
Definition outfit_count (neg : Z) (ko : nat * Outfit) : nat :=
  (length (positives_of_outfit (fst ko) (snd ko))
   + Z.to_nat neg * length (Items (snd ko)))%nat.
Definition sample_count (d : list Outfit) (neg : Z) : nat :=
  sum_list (outfit_count neg <$> enumerate d).

(** [enumerate(l)] with the count starting at [i]. *)
Definition enumerate_from {A} (i : nat) (l : list A) : list (nat * A) :=
  imap (fun j x => ((i + j)%nat, x)) l.

(** ** Concrete data for the examples *)

Definition item_of (image_path : string) : Item := {[ "ImagePath" := image_path ]}.

(** A world with the given tape and dataset, in which every image loads,
    every path can be written, there are two devices and training runs to
    its end. *)
Definition world_of (t : list nat) (dataset : DatasetFile) : World :=
  mkWorld t (Some [10; 25]) "20190101-120000" (fun _ => dataset)
    (fun path => Some (Image [Z.of_nat (String.length path)]))
    (fun _ => true)
    (Some [mkLayer "conv" true; mkLayer "pool" true])
    2 None [].

(** A generator as [SamplesGenerator.__init__] leaves it. *)
Definition generator_of (neg batch cap limit : Z) : SamplesGenerator :=
  mkGenerator cap limit batch neg "img/" "train.json" "inception" None None None.

Definition two_outfits : list Outfit :=
  [mkOutfit 7 [item_of "a"; item_of "b"]; mkOutfit 8 [item_of "c"]].
Definition zeros (n : nat) : list nat := repeat 0%nat n.

(** The body of [generate_samples] from the loops on, for a generator whose
    dataset [d] is loaded. *)
Definition sample_from (self : SamplesGenerator) (d : list Outfit)
  : M SamplesGenerator :=
  built <- build_samples d (neg_sample_count self) ;;
  shuffled <- shuffle built ;;
  steps <- floor_div (Z.of_nat (length (truncated self shuffled)))
                     (batch_size self) ;;
  unzipped <- unzip_samples (truncated self shuffled) ;;
  emit (Print (pretty (length (truncated self shuffled))
               +:+ " samples generated.")) ;;
  ret (set_samples unzipped (set_steps_per_epoch steps self)).

(** Two generators with the same configuration: the arguments of the
    constructor, whatever has been loaded or generated since. *)
Definition same_configuration (a b : SamplesGenerator) : Prop :=
  outfits_count_limit a = outfits_count_limit b
  ∧ samples_count_limit a = samples_count_limit b
  ∧ batch_size a = batch_size b
  ∧ neg_sample_count a = neg_sample_count b
  ∧ images_path a = images_path b
  ∧ dataset_path a = dataset_path b
  ∧ underlying_model a = underlying_model b.

(** A dataset whose outfits carry their position in the list as their
    identifier. *)
Definition numbered_by_position (d : list Outfit) : Prop :=
  ∀ (k : nat) outfit, d !! k = Some outfit → SetId outfit = Z.of_nat k.

Definition three_outfits : list Outfit :=
  [mkOutfit 0 [item_of "a"]; mkOutfit 1 [item_of "b"]; mkOutfit 2 [item_of "c"]].

(** A world in which the pretrained network cannot be loaded. *)
Definition offline_world : World :=
  mkWorld [] (Some [10; 25]) "20190101-120000" (fun _ => NoSuchFile)
    (fun _ => None) (fun _ => true) None 2 None [].

(** A world like [world_of], in which no path can be written. *)
Definition read_only_world (t : list nat) (dataset : DatasetFile) : World :=
  mkWorld t (Some [10; 25]) "20190101-120000" (fun _ => dataset)
    (fun path => Some (Image [Z.of_nat (String.length path)]))
    (fun _ => false)
    (Some [mkLayer "conv" true; mkLayer "pool" true])
    2 None [].

(** A world like [world_of], in which [time.clock] does not exist. *)
Definition clockless_world (t : list nat) (dataset : DatasetFile) : World :=
  mkWorld t None "20190101-120000" (fun _ => dataset)
    (fun path => Some (Image [Z.of_nat (String.length path)]))
    (fun _ => true)
    (Some [mkLayer "conv" true; mkLayer "pool" true])
    2 None [].

(** A model as [Style2Vec.__init__] leaves it, around a given generator. *)
Definition model_of (g : SamplesGenerator) : Style2Vec :=
  mkStyle2Vec (Some hyperparams) 5 false [] [] g.

(** * Properties *)

(** ** The monad *)

Lemma bind_Done {A B} (m : M A) (k : A -> M B) w b w' :
  bind m k w = Done b w' ↔ ∃ a w1, m w = Done a w1 ∧ k a w1 = Done b w'.
Proof.
  unfold bind. split.
  - destruct (m w) as [a w1| |]; [eauto | discriminate | discriminate].
  - intros (a & w1 & -> & H). exact H.
Qed.

Lemma ret_Done {A} (a b : A) w w' : ret a w = Done b w' ↔ a = b ∧ w = w'.
Proof. unfold ret. split; [intros [= -> ->]; done | intros [-> ->]; done]. Qed.

Lemma raise_not_Done {A} c msg w (a : A) w' : raise c msg w = Done a w' → False.
Proof. discriminate. Qed.

Lemma emit_Done e w u w' : emit e w = Done u w' → w' = log e w.
Proof. unfold emit. by intros [= _ <-]. Qed.

(** Breaks a hypothesis [m w = Done _ _] along the binds of [m]. *)
Ltac invert_bind H :=
  repeat match type of H with
  | bind _ _ _ = Done _ _ =>
      let a := fresh "a" in let w := fresh "w" in
      let H1 := fresh "Hrun" in
      apply bind_Done in H as (a & w & H1 & H)
  end.

(** What the rounds of a [for] loop produce, round by round. *)
Lemma for_each_Done {A B} (body : A -> M B) l w bs w' :
  for_each body l w = Done bs w' →
  Forall2 (fun a b => ∃ w1 w2, body a w1 = Done b w2) l bs.
Proof.
  revert w bs w'. induction l as [|x l IH]; intros w bs w' H; simpl in H.
  - apply ret_Done in H as [<- _]. constructor.
  - invert_bind H. apply ret_Done in H as [<- _].
    constructor; [by do 2 eexists | by eapply IH].
Qed.

(** A property of the world that every round keeps is kept by the loop. *)
Lemma for_each_world {A B} (P : World -> Prop) (body : A -> M B) l :
  (∀ a w b w', body a w = Done b w' → P w → P w') →
  ∀ w bs w', for_each body l w = Done bs w' → P w → P w'.
Proof.
  intros Hbody. induction l as [|x l IH]; intros w bs w' H HP; simpl in H.
  - apply ret_Done in H as [_ <-]. exact HP.
  - invert_bind H. apply ret_Done in H as [_ <-]. eauto.
Qed.

(** ** Loading the dataset *)

Lemma slice_to_nonneg {A} (k : Z) (l : list A) :
  0 ≤ k → slice_to k l = take (Z.to_nat k) l.
Proof. intros Hk. unfold slice_to. by rewrite (proj2 (Z.ltb_ge k 0) Hk). Qed.

(** C8. With a cap [K] that is set, not negative and smaller than the number
    of outfits in the file, [collect_data] keeps exactly the first [K]
    outfits of the file, in their order; with the cap unset (-1) or not
    smaller than that number it keeps the whole file. *)
Theorem collect_data_cap (self : SamplesGenerator) (w : World) (all : list Outfit) :
  files w (dataset_path self) = Json all →
  ∃ d w', collect_data self w = Done (set_data d self) w'
    ∧ (0 ≤ outfits_count_limit self < Z.of_nat (length all) →
       d = take (Z.to_nat (outfits_count_limit self)) all
       ∧ Z.of_nat (length d) = outfits_count_limit self)
    ∧ (outfits_count_limit self = -1
       ∨ Z.of_nat (length all) ≤ outfits_count_limit self →
       d = all).
Proof.
  intros Hfile. unfold collect_data, bind, emit. simpl. rewrite Hfile.
  set (K := outfits_count_limit self).
  destruct (bool_decide (K ≠ -1) && (K <? Z.of_nat (length all))) eqn:Hcap.
  - apply andb_prop in Hcap as [Hset Hlt].
    apply bool_decide_eq_true in Hset. apply Z.ltb_lt in Hlt.
    eexists _, _. split; [reflexivity|]. split.
    + intros [Hk _]. rewrite slice_to_nonneg by done.
      split; [done|]. rewrite length_take. lia.
    + intros [?|?]; [done | lia].
  - eexists _, _. split; [reflexivity|]. split.
    + intros [Hk Hlt]. apply andb_false_iff in Hcap as [Hset|Hge].
      * apply bool_decide_eq_false in Hset. lia.
      * apply Z.ltb_ge in Hge. lia.
    + done.
Qed.

Lemma collect_data_cap_witness :
  ∃ d w', collect_data (generator_of 5 10 1 (-1))
            (world_of [] (Json [mkOutfit 7 [item_of "a"]; mkOutfit 8 [item_of "b"]]))
          = Done (set_data d (generator_of 5 10 1 (-1))) w'
    ∧ d = [mkOutfit 7 [item_of "a"]].
Proof.
  destruct (collect_data_cap (generator_of 5 10 1 (-1))
              (world_of [] (Json [mkOutfit 7 [item_of "a"]; mkOutfit 8 [item_of "b"]]))
              [mkOutfit 7 [item_of "a"]; mkOutfit 8 [item_of "b"]] eq_refl)
    as (d & w' & Hrun & Hcap & _).
  exists d, w'. split; [exact Hrun|].
  apply Hcap. simpl. lia.
Defined.

(** ** The constructors *)

(** [Style2Vec.__init__] does not look at its argument [underlying_model]:
    the generator it builds gets the default selector. *)
Lemma Style2Vec_init_any_underlying_model dp ip b e um ol sl hp :
  Style2Vec_init dp ip b e um ol sl hp
  = Style2Vec_init dp ip b e default_underlying_model ol sl hp.
Proof. reflexivity. Qed.

(** C6, as the program has it. A selector other than ['inception'] makes
    [SamplesGenerator.__init__] raise [ValueError] at once: the world is the
    one the constructor started in, so no file has been opened or read. *)
Theorem SamplesGenerator_init_rejects dp ip neg b um ol sl (w : World) :
  um ≠ "inception" →
  SamplesGenerator_init dp ip neg b um ol sl w
  = Raised (mkExn ValueError "Invalid underlying model") w.
Proof.
  intros Hum. unfold SamplesGenerator_init.
  by rewrite bool_decide_eq_true_2.
Qed.

Lemma SamplesGenerator_init_rejects_witness :
  "vgg" ≠ "inception"
  ∧ SamplesGenerator_init "train.json" "img/" 5 10 "vgg" (-1) (-1)
      (world_of [] NoSuchFile)
    = Raised (mkExn ValueError "Invalid underlying model") (world_of [] NoSuchFile).
Proof.
  split; [discriminate|].
  apply (SamplesGenerator_init_rejects "train.json" "img/" 5 10 "vgg" (-1) (-1)).
  discriminate.
Defined.

(** C6 as stated fails: the exception of the generator's constructor is not
    a [ConfigurationError], and the wrapper's constructor accepts the
    selector ['vgg'] and builds the model. *)
Lemma unsupported_selector_counterexample :
  ¬ raises (SamplesGenerator_init "train.json" "img/" 5 10 "vgg" (-1) (-1)
              (world_of [] NoSuchFile)) ConfigurationError
  ∧ ¬ raises (Style2Vec_init "train.json" "img/" 10 1 "vgg" (-1) (-1)
                (Some hyperparams) (world_of [] NoSuchFile)) ConfigurationError.
Proof.
  split.
  - intros (e & w & Hrun & Hclass). vm_compute in Hrun.
    injection Hrun as <- _. discriminate Hclass.
  - intros (e & w & Hrun & _). vm_compute in Hrun. discriminate Hrun.
Qed.

(** ** Fine-tuning *)

Lemma InceptionV3_Done w layers w' :
  InceptionV3 w = Done layers w' →
  pretrained w = Some layers ∧ w' = log (LoadPretrained "imagenet") w.
Proof.
  unfold InceptionV3, bind, emit. simpl.
  destruct (pretrained w); [|discriminate]. by intros [= <- <-].
Qed.

Lemma subscript_Done (h : Hparams) key v w w' :
  subscript (Some h) key w = Done v w' → h !! key = Some v.
Proof.
  unfold subscript. destruct (h !! key); [|discriminate].
  unfold ret. by intros [= <- _].
Qed.

Lemma rename_layers_trainable prefix layers :
  trainable <$> rename_layers prefix layers = trainable <$> layers.
Proof.
  unfold rename_layers. generalize (length layers). intros n.
  apply list_eq. intros i.
  rewrite !list_lookup_fmap, list_lookup_imap.
  destruct (layers !! i) as [l|]; [|done]. simpl.
  by destruct (bool_decide _).
Qed.

Lemma rename_layers_length prefix layers :
  length (rename_layers prefix layers) = length layers.
Proof. unfold rename_layers. by rewrite length_imap. Qed.

Lemma fine_tune_layers_length layers :
  length (fine_tune_layers layers) = length layers.
Proof.
  unfold fine_tune_layers.
  rewrite length_app, !length_fmap, length_take, length_drop. lia.
Qed.

(** After the fine-tuning loops, the layer at position [i] is trainable
    exactly when [i] is at least 249. *)
Lemma fine_tune_layers_lookup layers (i : nat) :
  (i < length layers)%nat →
  trainable <$> fine_tune_layers layers !! i = Some (bool_decide (249 ≤ i)%nat).
Proof.
  intros Hi. unfold fine_tune_layers.
  destruct (decide (i < 249)%nat) as [Hlt|Hge].
  - rewrite lookup_app_l by (rewrite length_fmap, length_take; lia).
    rewrite list_lookup_fmap, lookup_take_lt by lia.
    destruct (lookup_lt_is_Some_2 layers i Hi) as [l ->]. simpl.
    by rewrite bool_decide_eq_false_2 by lia.
  - rewrite lookup_app_r by (rewrite length_fmap, length_take; lia).
    rewrite length_fmap, length_take, list_lookup_fmap, lookup_drop.
    replace (249 + (i - 249 `min` length layers))%nat with i by lia.
    destruct (lookup_lt_is_Some_2 layers i Hi) as [l ->]. simpl.
    by rewrite bool_decide_eq_true_2 by lia.
Qed.

(** C7. When [hparams[HP_FINE_TUNE]] is true, the constructor leaves, in
    each of the two towers, the layers at positions below 249 not trainable
    and every layer from position 249 on trainable.  When it is false, the
    constructor changes no flag: both towers keep, layer by layer, the flags
    with which the pretrained network was built. *)
Theorem fine_tune_policy dp ip b e um ol sl (h : Hparams) (v : HValue)
    (w : World) (m : Style2Vec) (w' : World) :
  h !! HP_FINE_TUNE = Some v →
  Style2Vec_init dp ip b e um ol sl (Some h) w = Done m w' →
  ∃ layers, pretrained w = Some layers
    ∧ length (model_target m) = length layers
    ∧ length (model_context m) = length layers
    ∧ (truthy v = true →
       ∀ i : nat, (i < length layers)%nat →
         trainable <$> model_target m !! i = Some (bool_decide (249 ≤ i)%nat)
         ∧ trainable <$> model_context m !! i = Some (bool_decide (249 ≤ i)%nat))
    ∧ (truthy v = false →
       trainable <$> model_target m = trainable <$> layers
       ∧ trainable <$> model_context m = trainable <$> layers).
Proof.
  intros Hv Hrun. unfold Style2Vec_init in Hrun. invert_bind Hrun.
  apply ret_Done in Hrun as [<- _]. simpl.
  apply InceptionV3_Done in Hrun0 as [Ht ->].
  apply InceptionV3_Done in Hrun1 as [Hc ->]. simpl in Hc.
  rewrite Ht in Hc. injection Hc as <-.
  apply subscript_Done in Hrun2. rewrite Hv in Hrun2. injection Hrun2 as <-.
  exists a. split; [done|].
  destruct (truthy v) eqn:Htruth.
  - rewrite !fine_tune_layers_length, !rename_layers_length.
    split; [done|]. split; [done|]. split; [|done].
    intros _ i Hi.
    split; apply fine_tune_layers_lookup; by rewrite rename_layers_length.
  - rewrite !rename_layers_length. split; [done|]. split; [done|].
    split; [done|]. intros _. by rewrite !rename_layers_trainable.
Qed.

Lemma fine_tune_policy_witness :
  ∃ m w', Style2Vec_init "train.json" "img/" 5 5 "inception" 50 (-1)
            (Some hyperparams) (world_of [] NoSuchFile) = Done m w'
    ∧ trainable <$> model_target m !! 1%nat = Some false
    ∧ trainable <$> model_context m !! 1%nat = Some false.
Proof.
  eexists _, _. split; [vm_compute; reflexivity|].
  destruct (fine_tune_policy "train.json" "img/" 5 5 "inception" 50 (-1)
              hyperparams (HBool true) (world_of [] NoSuchFile) _ _
              eq_refl eq_refl) as (layers & Hl & _ & _ & Hon & _).
  injection Hl as <-.
  exact (Hon eq_refl 1%nat ltac:(simpl; lia)).
Defined.

(** ** The handler of the training script *)

(** C5. When [model.fit()] raises an exception [e], the script saves the
    model under the name tagged [_err], writes [str(e)] to the error file
    and prints that it exited with an error, in this order; the two paths
    are taken to be writable. *)
Theorem failure_is_saved_and_reported (model : Style2Vec) (w w1 : World)
    (t : Z) (later : list Z) (e : Exn) :
  clock w = Some (t :: later) →
  fit model (with_clock later w) = Raised e w1 →
  writable w1 ("model" +:+ now w +:+ "_err.h5") = true →
  writable w1 ("err" +:+ now w +:+ ".txt") = true →
  train_and_save model w
  = Done tt (log (Print "Exited with error.")
            (log (WriteFile ("err" +:+ now w +:+ ".txt") [exn_message e])
            (log (SaveModel ("model" +:+ now w +:+ "_err.h5")) w1))).
Proof.
  intros Hclock Hfit Hmodel Herr.
  unfold train_and_save, try_except, bind at 1, time_clock at 1.
  rewrite Hclock. unfold bind at 1. rewrite Hfit.
  unfold bind, save, write_file, emit. rewrite Hmodel. simpl.
  by rewrite Herr.
Qed.

(** The script that has handled the exception ends like a script that met
    none: the interpreter leaves it with status 0. *)
Lemma handled_failure_exit_status (model : Style2Vec) (w w1 : World)
    (t : Z) (later : list Z) (e : Exn) :
  clock w = Some (t :: later) →
  fit model (with_clock later w) = Raised e w1 →
  writable w1 ("model" +:+ now w +:+ "_err.h5") = true →
  writable w1 ("err" +:+ now w +:+ ".txt") = true →
  exit_status (train_and_save model w) = Some 0.
Proof.
  intros Hclock Hfit Hmodel Herr. unfold train_and_save, try_except, bind at 1, time_clock at 1.
  rewrite Hclock. unfold bind at 1. rewrite Hfit.
  unfold bind, save, write_file, emit. rewrite Hmodel. simpl.
  by rewrite Herr.
Qed.

Lemma failure_is_saved_and_reported_witness :
  ∃ w', train_and_save
          (mkStyle2Vec (Some hyperparams) 5 false [] [] (generator_of 5 5 50 (-1)))
          (world_of [] (Json [mkOutfit 7 [item_of "a"; item_of "b"]]))
        = Done tt w'
    ∧ io w' = [ Print "Model fitting has started.";
                OpenRead "train.json";
                Print "Dataset has been successfully loaded (1 outfits).";
                SaveModel "model20190101-120000_err.h5";
                WriteFile "err20190101-120000.txt" ["empty range for randrange()"];
                Print "Exited with error." ].
Proof.
  eexists. split.
  - eapply (failure_is_saved_and_reported _ _ _ 10 [25]);
      [reflexivity | vm_compute; reflexivity | reflexivity | reflexivity].
  - vm_compute. reflexivity.
Defined.

(** ** The [random] module *)

Lemma randrange_Done n w j w' :
  randrange n w = Done j w' →
  0 ≤ j < n ∧ ∃ r, tape w = r :: tape w' ∧ w' = with_tape (tape w') w.
Proof.
  unfold randrange. destruct (n <=? 0) eqn:Hn; [discriminate|].
  apply Z.leb_gt in Hn.
  destruct (tape w) as [|r t] eqn:Ht; [discriminate|].
  intros [= <- <-]. split; [by apply Z.mod_pos_bound|].
  exists r. by simpl.
Qed.

Lemma choice_Done {A} (seq : list A) w x w' :
  choice seq w = Done x w' → x ∈ seq.
Proof.
  unfold choice. destruct seq as [|y seq]; [discriminate|].
  intros H. invert_bind H.
  destruct ((y :: seq) !! Z.to_nat a) as [z|] eqn:Hz; [|discriminate].
  apply ret_Done in H as [<- _]. by eapply list_elem_of_lookup_2.
Qed.

(** Putting [x] at a position that held [b] trades one for the other. *)
Lemma insert_Permutation {A} (l : list A) (j : nat) (b x : A) :
  l !! j = Some b → b :: <[j := x]> l ≡ₚ x :: l.
Proof.
  revert j. induction l as [|y l IH]; intros [|j] Hj; simplify_eq/=.
  - apply Permutation_swap.
  - rewrite Permutation_swap, (IH _ Hj). apply Permutation_swap.
Qed.

Lemma swap_Permutation {A} (x : list A) (i j : nat) : swap x i j ≡ₚ x.
Proof.
  unfold swap.
  destruct (x !! i) as [a|] eqn:Hi; [|done].
  destruct (x !! j) as [b|] eqn:Hj; [|done].
  revert i j Hi Hj. induction x as [|y x IH]; intros [|i] [|j] Hi Hj;
    simplify_eq/=.
  - done.
  - by apply insert_Permutation.
  - by apply insert_Permutation.
  - by rewrite IH.
Qed.

Lemma shuffle_from_Permutation {A} (i : nat) (x : list A) w y w' :
  shuffle_from i x w = Done y w' → y ≡ₚ x.
Proof.
  revert x w. induction i as [|i IH]; intros x w H; simpl in H.
  - by apply ret_Done in H as [<- _].
  - invert_bind H. rewrite (IH _ _ H). apply swap_Permutation.
Qed.

(** [random.shuffle] rearranges the list and does nothing else to it. *)
Lemma shuffle_Permutation {A} (x : list A) w y w' :
  shuffle x w = Done y w' → y ≡ₚ x.
Proof. apply shuffle_from_Permutation. Qed.

(** ** The loops of [generate_samples] *)

Lemma item_refs_lookup k outfit j r :
  item_refs k outfit !! j = Some r ↔
  ∃ v, Items outfit !! j = Some v ∧ r = mkRef k j v.
Proof.
  unfold item_refs. rewrite list_lookup_imap.
  destruct (Items outfit !! j) as [v|]; simpl; split.
  - intros [= <-]. eauto.
  - by intros (v' & [= <-] & ->).
  - discriminate.
  - by intros (? & ? & _).
Qed.

Lemma item_refs_elem k outfit r :
  r ∈ item_refs k outfit →
  at_outfit r = k ∧ Items outfit !! at_pos r = Some (value r).
Proof.
  intros Hr. apply list_elem_of_lookup in Hr as [j Hj].
  apply item_refs_lookup in Hj as (v & Hv & ->). done.
Qed.

Lemma item_refs_length k outfit :
  length (item_refs k outfit) = length (Items outfit).
Proof. unfold item_refs. by rewrite length_imap. Qed.

Lemma enumerate_lookup {A} (l : list A) (k : nat) (ko : nat * A) :
  enumerate l !! k = Some ko ↔ fst ko = k ∧ l !! k = Some (snd ko).
Proof.
  unfold enumerate. rewrite list_lookup_imap. destruct ko as [k' o]. simpl.
  destruct (l !! k) as [x|]; simpl; split.
  - by intros [= <- <-].
  - by intros [-> [= ->]].
  - discriminate.
  - by intros [_ ?].
Qed.

Lemma positive_samples_elem item items s :
  s ∈ positive_samples item items ↔
  ∃ c, c ∈ items ∧ value item ≠ value c ∧ s = ((item, c), 1).
Proof.
  unfold positive_samples. rewrite list_elem_of_In, in_flat_map. split.
  - intros (c & Hc & Hs). apply list_elem_of_In in Hc.
    case_bool_decide; [|by destruct Hs].
    destruct Hs as [<-|[]]. eauto.
  - intros (c & Hc & Hne & ->). exists c. split; [by apply list_elem_of_In|].
    rewrite bool_decide_eq_true_2 by done. by left.
Qed.

Lemma retry_outfit_index_with_tape n set_id t t0 w :
  (n <=? 0) = false →
  retry_outfit_index n set_id t (with_tape t0 w) = retry_outfit_index n set_id t w.
Proof.
  intros Hn. induction t as [|r t IH]; simpl; rewrite Hn; [done|].
  by destruct (bool_decide _).
Qed.

(** The retry loop is the loop of the source: draw, test, draw again. *)
Lemma draw_outfit_index_unfold n set_id w :
  draw_outfit_index n set_id w
  = (neg_outfit_index <- randrange n ;;
     if bool_decide (neg_outfit_index ≠ set_id) then ret neg_outfit_index
     else draw_outfit_index n set_id) w.
Proof.
  unfold draw_outfit_index, bind, randrange.
  destruct (tape w) as [|r t] eqn:Ht; simpl.
  - by destruct (n <=? 0).
  - destruct (n <=? 0) eqn:Hn; [done|].
    destruct (bool_decide _); [done|]. simpl.
    by rewrite retry_outfit_index_with_tape.
Qed.

Lemma retry_outfit_index_Done n set_id t w idx w' :
  retry_outfit_index n set_id t w = Done idx w' →
  0 ≤ idx < n ∧ idx ≠ set_id.
Proof.
  revert w. induction t as [|r t IH]; intros w; simpl.
  - by destruct (n <=? 0).
  - destruct (n <=? 0) eqn:Hn; [discriminate|]. apply Z.leb_gt in Hn.
    case_bool_decide as Hne; [|apply IH].
    intros [= <- _]. split; [by apply Z.mod_pos_bound | done].
Qed.

Lemma negative_sample_Done d outfit item w s w' :
  negative_sample d outfit item w = Done s w' →
  drawn_negative d outfit item s.
Proof.
  unfold negative_sample. intros H. invert_bind H.
  apply ret_Done in H as [<- _].
  apply retry_outfit_index_Done in Hrun as [Hrange Hne].
  unfold index in Hrun0.
  destruct (d !! Z.to_nat a) as [o|] eqn:Ho; [|discriminate].
  apply ret_Done in Hrun0 as [<- _].
  apply choice_Done, item_refs_elem in Hrun1 as [Hat Hpos].
  unfold drawn_negative, context, target, label, points_into. simpl.
  rewrite Hat. repeat split; [lia | by rewrite Z2Nat.id by lia | eauto].
Qed.

Lemma samples_of_item_Done d neg outfit items item w xs w' :
  samples_of_item d neg outfit items item w = Done xs w' →
  item_block d neg outfit items item xs.
Proof.
  unfold samples_of_item. intros H. invert_bind H.
  apply ret_Done in H as [<- _]. exists a. split; [done|].
  apply for_each_Done in Hrun.
  split.
  - apply Forall2_length in Hrun. by rewrite length_seq in Hrun.
  - eapply Forall2_Forall_r; [exact Hrun|].
    apply Forall_forall. intros _ _ s (w1 & w2 & Hs).
    by eapply negative_sample_Done.
Qed.

Lemma samples_of_outfit_Done d neg ko w block w' :
  samples_of_outfit d neg ko w = Done block w' →
  outfit_block d neg ko block.
Proof.
  unfold samples_of_outfit. intros H. invert_bind H.
  apply ret_Done in H as [<- _]. exists a. split; [done|].
  apply for_each_Done in Hrun.
  eapply Forall2_impl; [exact Hrun|]. simpl.
  intros item xs (w1 & w2 & Hxs). by eapply samples_of_item_Done.
Qed.

Lemma build_samples_Done d neg w built w' :
  build_samples d neg w = Done built w' → built_from d neg built.
Proof.
  unfold build_samples. intros H. invert_bind H.
  apply ret_Done in H as [<- _]. exists a. split; [done|].
  apply for_each_Done in Hrun.
  eapply Forall2_impl; [exact Hrun|]. simpl.
  intros ko xs (w1 & w2 & Hxs). by eapply samples_of_outfit_Done.
Qed.

(** ** [generate_samples] as a whole *)

Lemma collect_data_Done self w self' w' :
  collect_data self w = Done self' w' → ∃ d, self' = set_data d self.
Proof.
  unfold collect_data, bind, emit. simpl.
  destruct (files w (dataset_path self)); [discriminate|discriminate|].
  unfold ret. intros [= <- _]. eauto.
Qed.

Lemma zip_fmap_fst_snd {A B} (l : list (A * B)) :
  zip (fst <$> l) (snd <$> l) = l.
Proof. induction l as [|[a b] l IH]; simpl; by f_equal. Qed.

(** What a run of [generate_samples] that returns has done: the samples it
    stores are the list built by the three loops, rearranged and cut to
    [samples_count_limit]; that list is not empty, the batch size is not
    zero, and [steps_per_epoch] is the floor of their quotient. *)
Lemma generate_samples_Done self w self' w' :
  generate_samples self w = Done self' w' →
  ∃ d built shuffled,
    dataset_in_use self w = Some d
    ∧ data self' = Some d
    ∧ built_from d (neg_sample_count self) built
    ∧ shuffled ≡ₚ built
    ∧ samples self' = Some (fst <$> truncated self shuffled,
                            snd <$> truncated self shuffled)
    ∧ truncated self shuffled ≠ []
    ∧ batch_size self ≠ 0
    ∧ steps_per_epoch self'
      = Some (Z.of_nat (length (truncated self shuffled)) / batch_size self)
    ∧ batch_size self' = batch_size self
    ∧ underlying_model self' = underlying_model self
    ∧ images_path self' = images_path self.
Proof.
  unfold generate_samples. intros H. invert_bind H.
  apply ret_Done in H as [<- _].
  assert (∃ d, data a = Some d ∧ dataset_in_use self w = Some d
               ∧ neg_sample_count a = neg_sample_count self
               ∧ samples_count_limit a = samples_count_limit self
               ∧ batch_size a = batch_size self
               ∧ underlying_model a = underlying_model self
               ∧ images_path a = images_path self)
    as (d & Hd & Huse & Hneg & Hlim & Hb & Hum & Hip).
  { unfold dataset_in_use. destruct (data self) as [d|] eqn:Hdata.
    - apply ret_Done in Hrun as [<- _]. eauto 10.
    - rewrite Hrun. apply collect_data_Done in Hrun as [d ->]. eauto 10. }
  rewrite Hd in Hrun0. apply ret_Done in Hrun0 as [<- _].
  apply build_samples_Done in Hrun1. rewrite Hneg in Hrun1.
  apply shuffle_Permutation in Hrun2.
  unfold floor_div in Hrun3. rewrite Hb in Hrun3.
  destruct (batch_size self =? 0) eqn:Hzero; [discriminate|].
  apply Z.eqb_neq in Hzero. apply ret_Done in Hrun3 as [<- _].
  rewrite Hlim in *. fold (truncated self a2) in *.
  unfold unzip_samples in Hrun4.
  destruct (truncated self a2) as [|s rest] eqn:Htr; [discriminate|].
  apply ret_Done in Hrun4 as [<- _].
  exists d, a1, a2. simpl. rewrite Htr. repeat split; try done.
Qed.

Lemma sample_list_Done self w self' w' :
  generate_samples self w = Done self' w' →
  ∃ d built shuffled,
    data self' = Some d
    ∧ built_from d (neg_sample_count self) built
    ∧ shuffled ≡ₚ built
    ∧ sample_list self' = truncated self shuffled.
Proof.
  intros H. apply generate_samples_Done in H
    as (d & built & shuffled & _ & Hd & Hbuilt & Hperm & Hs & _).
  exists d, built, shuffled. repeat split; try done.
  unfold sample_list. rewrite Hs. apply zip_fmap_fst_snd.
Qed.

(** The truncation keeps a part of the list. *)
Lemma truncated_subseteq self shuffled : truncated self shuffled ⊆ shuffled.
Proof.
  unfold truncated, slice_to.
  destruct (_ && _); [|done].
  destruct (_ <? 0); apply subseteq_take.
Qed.

(** Without a limit, or with one that the number of samples does not
    exceed, nothing is cut. *)
Lemma truncated_all self shuffled :
  samples_count_limit self = -1
  ∨ Z.of_nat (length shuffled) ≤ samples_count_limit self →
  truncated self shuffled = shuffled.
Proof.
  intros Hlim. unfold truncated.
  destruct (bool_decide _ && _) eqn:Hcut; [|done].
  apply andb_prop in Hcut as [Hset Hlt].
  apply bool_decide_eq_true in Hset. apply Z.ltb_lt in Hlt. lia.
Qed.

(** Where a sample of the built list comes from: an item of some outfit of
    the dataset, for which it is a positive sample or a drawn negative. *)
Lemma built_from_elem d neg built s :
  built_from d neg built → s ∈ built →
  ∃ k outfit item,
    d !! k = Some outfit ∧ item ∈ item_refs k outfit
    ∧ (s ∈ positive_samples item (item_refs k outfit)
       ∨ drawn_negative d outfit item s).
Proof.
  intros (per_outfit & -> & Hblocks) Hs.
  apply list_elem_of_join in Hs as (block & Hs & Hblock).
  apply list_elem_of_lookup in Hblock as [k Hk].
  destruct (Forall2_lookup_r _ _ _ _ _ Hblocks Hk) as ([k' o] & Hko & Hob).
  apply enumerate_lookup in Hko as [Heq Ho]. simpl in *. subst k'.
  destruct Hob as (per_item & -> & Hitems). simpl in *.
  apply list_elem_of_join in Hs as (xs & Hs & Hxs).
  apply list_elem_of_lookup in Hxs as [j Hj].
  destruct (Forall2_lookup_r _ _ _ _ _ Hitems Hj) as (item & Hitem & Hib).
  destruct Hib as (negs & -> & _ & Hnegs).
  exists k, o, item. split; [done|].
  split; [by eapply list_elem_of_lookup_2|].
  apply elem_of_app in Hs as [Hpos|Hneg]; [by left|right].
  by eapply (proj1 (Forall_forall _ _) Hnegs).
Qed.

(** The drawn negatives of a run that returns. *)
Lemma negative_samples_drawn self w self' w' :
  generate_samples self w = Done self' w' →
  ∃ d, data self' = Some d
    ∧ ∀ s, s ∈ sample_list self' → label s = 0 →
        ∃ outfit, d !! at_outfit (target s) = Some outfit
                  ∧ drawn_negative d outfit (target s) s.
Proof.
  intros Hrun.
  apply sample_list_Done in Hrun as (d & built & shuffled & Hd & Hb & Hp & ->).
  exists d. split; [done|]. intros s Hs Hlabel.
  apply truncated_subseteq in Hs. rewrite Hp in Hs.
  destruct (built_from_elem _ _ _ _ Hb Hs)
    as (k & o & item & Ho & Hitem & [Hpos|Hneg]).
  - apply positive_samples_elem in Hpos as (c & _ & _ & ->). discriminate.
  - apply item_refs_elem in Hitem as [Hk _].
    destruct Hneg as (Htarget & Hneg). exists o. rewrite Htarget, Hk.
    split; [done|]. by split.
Qed.

(** C9. In every run of [generate_samples] that returns, the context of
    each sample labelled 0 is an item object of the dataset that lies in an
    outfit at a position below [len(self.data) - 1]: no object of the last
    outfit is a negative context. *)
Theorem last_outfit_never_negative self w self' w' :
  generate_samples self w = Done self' w' →
  ∃ d, data self' = Some d
    ∧ ∀ s, s ∈ sample_list self' → label s = 0 →
        points_into d (context s)
        ∧ (at_outfit (context s) < length d - 1)%nat.
Proof.
  intros Hrun. apply negative_samples_drawn in Hrun as (d & Hd & Hneg).
  exists d. split; [done|]. intros s Hs Hlabel.
  destruct (Hneg s Hs Hlabel) as (o & _ & _ & _ & Hlt & _ & Hpoint).
  split; [done | lia].
Qed.

Lemma last_outfit_never_negative_witness :
  ∃ self' w',
    generate_samples (generator_of 1 2 (-1) (-1))
      (world_of (zeros 10) (Json two_outfits)) = Done self' w'
    ∧ ∃ d, data self' = Some d
        ∧ ∀ s, s ∈ sample_list self' → label s = 0 →
            points_into d (context s)
            ∧ (at_outfit (context s) < length d - 1)%nat.
Proof.
  eexists _, _. split; [vm_compute; reflexivity|].
  eapply (last_outfit_never_negative (generator_of 1 2 (-1) (-1))
            (world_of (zeros 10) (Json two_outfits))).
  vm_compute. reflexivity.
Defined.

(** ** The negative draw compares a position with an identifier *)

(** C1 fails on the program. The dataset has two outfits with the
    identifiers 7 and 8 and one negative sample per item is asked for. The
    only position that [randrange(len(self.data) - 1)] can give is 0, and 0
    differs from the identifier 7 of the outfit at position 0: the run
    returns the sample [((a, a), 0)], whose context is the target itself,
    from the same outfit. *)
Theorem negative_from_own_outfit :
  ∃ self' w',
    generate_samples (generator_of 1 2 (-1) (-1))
      (world_of (zeros 10) (Json two_outfits)) = Done self' w'
    ∧ ((mkRef 0 0 (item_of "a"), mkRef 0 0 (item_of "a")), 0) ∈ sample_list self'
    ∧ SetId <$> two_outfits = [7; 8].
Proof.
  eexists _, _. split; [vm_compute; reflexivity|]. split; [|reflexivity].
  apply (list_elem_of_lookup_2 _ 0%nat). vm_compute. reflexivity.
Qed.

(** The same on every tape: whenever the run on this dataset returns, each
    negative sample has its context in the outfit at position 0, also those
    whose target is in that outfit. *)
Lemma negatives_of_two_outfits t self' w' :
  generate_samples (generator_of 1 2 (-1) (-1)) (world_of t (Json two_outfits))
  = Done self' w' →
  ∀ s, s ∈ sample_list self' → label s = 0 → at_outfit (context s) = 0%nat.
Proof.
  intros Hrun s Hs Hlabel.
  pose proof (generate_samples_Done _ _ _ _ Hrun)
    as (d' & _ & _ & Huse & Hd' & _).
  apply negative_samples_drawn in Hrun as (d & Hd & Hneg).
  destruct (Hneg s Hs Hlabel) as (o & _ & _ & _ & Hlt & _).
  rewrite Hd' in Hd. injection Hd as <-.
  vm_compute in Huse. injection Huse as <-. simpl in Hlt. lia.
Qed.

(** ** A dataset of one outfit *)

Lemma draw_outfit_index_empty_range n set_id w :
  n ≤ 0 →
  draw_outfit_index n set_id w
  = Raised (mkExn ValueError "empty range for randrange()") w.
Proof.
  intros Hn. unfold draw_outfit_index.
  destruct (tape w); simpl; by rewrite (proj2 (Z.leb_le n 0) Hn).
Qed.

Lemma bind_Raised {A B} (m : M A) (k : A -> M B) w e w' :
  m w = Raised e w' → bind m k w = Raised e w'.
Proof. unfold bind. by intros ->. Qed.

Lemma for_each_Raised {A B} (body : A -> M B) x l w e w' :
  body x w = Raised e w' → for_each body (x :: l) w = Raised e w'.
Proof. intros H. simpl. by apply bind_Raised. Qed.

Lemma build_samples_one_outfit outfit neg w :
  Items outfit ≠ [] → 0 < neg →
  build_samples [outfit] neg w
  = Raised (mkExn ValueError "empty range for randrange()") w.
Proof.
  intros Hitems Hneg.
  apply bind_Raised, for_each_Raised, bind_Raised. simpl.
  unfold item_refs. destruct (Items outfit) as [|v items]; [done|]. simpl.
  apply bind_Raised, bind_Raised.
  destruct (Z.to_nat neg) as [|n] eqn:Hn; [lia|]. simpl.
  apply bind_Raised, bind_Raised.
  by apply draw_outfit_index_empty_range.
Qed.

(** C4, as the program has it. With a dataset of exactly one outfit that
    holds an item, and a positive number of negative samples, every run of
    [generate_samples] raises [ValueError], the error of
    [random.randrange] for an empty range, before any random number is
    drawn: the retry loop is never entered. *)
Theorem one_outfit_raises_ValueError self w outfit :
  dataset_in_use self w = Some [outfit] →
  Items outfit ≠ [] →
  0 < neg_sample_count self →
  ∃ w', generate_samples self w
        = Raised (mkExn ValueError "empty range for randrange()") w'
        ∧ tape w' = tape w.
Proof.
  intros Huse Hitems Hneg. unfold generate_samples, dataset_in_use in *.
  destruct (data self) as [d|] eqn:Hdata.
  - injection Huse as ->. exists w. split; [|done].
    unfold bind at 1. simpl. rewrite Hdata.
    unfold bind at 1. simpl. unfold bind at 1.
    by rewrite build_samples_one_outfit.
  - destruct (collect_data self w) as [self1 w1| |] eqn:Hcollect;
      [|discriminate|discriminate].
    exists w1. split.
    + unfold bind at 1. rewrite Hcollect, Huse.
      unfold bind at 1. simpl. unfold bind at 1.
      destruct (collect_data_Done _ _ _ _ Hcollect) as [d ->]. simpl.
      by rewrite build_samples_one_outfit.
    + revert Hcollect. unfold collect_data, bind, emit. simpl.
      destruct (files w (dataset_path self)); [discriminate|discriminate|].
      unfold ret. by intros [= _ <-].
Qed.

Lemma one_outfit_raises_ValueError_witness :
  ∃ w', generate_samples (generator_of 5 10 (-1) (-1))
          (world_of (zeros 10) (Json [mkOutfit 7 [item_of "a"; item_of "b"]]))
        = Raised (mkExn ValueError "empty range for randrange()") w'
        ∧ tape w' = zeros 10.
Proof.
  apply (one_outfit_raises_ValueError (generator_of 5 10 (-1) (-1))
           (world_of (zeros 10) (Json [mkOutfit 7 [item_of "a"; item_of "b"]]))
           (mkOutfit 7 [item_of "a"; item_of "b"])).
  - reflexivity.
  - discriminate.
  - reflexivity.
Defined.

(** C4 as stated fails: the exception is not an [InsufficientDataError]. *)
Lemma one_outfit_counterexample :
  ¬ raises (generate_samples (generator_of 5 10 (-1) (-1))
              (world_of (zeros 10) (Json [mkOutfit 7 [item_of "a"; item_of "b"]])))
           InsufficientDataError.
Proof.
  intros (e & w & Hrun & Hclass). vm_compute in Hrun.
  injection Hrun as <- _. discriminate Hclass.
Qed.

(** ** Counting the samples of one outfit *)

Section filter_join.
Context {A : Type} (P : A → Prop) `{!∀ x, Decision (P x)}.

Lemma filter_join (ls : list (list A)) :
  filter P (mjoin ls) = mjoin (filter P <$> ls).
Proof.
  induction ls as [|l ls IH]; [done|].
  simpl. by rewrite filter_app, IH.
Qed.

Lemma filter_none (l : list A) : Forall (fun x => ¬ P x) l → filter P l = [].
Proof.
  induction 1 as [|x l Hx _ IH]; [done|]. by rewrite filter_cons_False.
Qed.

Lemma filter_all (l : list A) : Forall P l → filter P l = l.
Proof.
  induction 1 as [|x l Hx _ IH]; [done|].
  by rewrite filter_cons_True, IH.
Qed.

(** Only one of the joined lists holds elements with the property. *)
Lemma filter_join_single (ls : list (list A)) (k : nat) (block : list A) :
  ls !! k = Some block →
  (∀ j b, ls !! j = Some b → j ≠ k → Forall (fun x => ¬ P x) b) →
  filter P (mjoin ls) = filter P block.
Proof.
  revert k. induction ls as [|l ls IH]; intros [|k] Hk Hother;
    simplify_eq/=; rewrite filter_app.
  - rewrite filter_join.
    assert (filter P <$> ls = (fun _ => []) <$> ls) as ->.
    { apply list_eq. intros j. rewrite !list_lookup_fmap.
      destruct (ls !! j) as [b|] eqn:Hb; [|done]. simpl. f_equal.
      apply filter_none, (Hother (S j)); [done | lia]. }
    assert (mjoin ((fun _ : list A => @nil A) <$> ls) = []) as ->.
    { clear. induction ls as [|l ls IH]; [done|]. simpl. exact IH. }
    by rewrite app_nil_r.
  - rewrite (filter_none l) by (apply (Hother 0%nat); [done | lia]).
    simpl. apply (IH k); [done|].
    intros j b Hb Hj. apply (Hother (S j)); [done | lia].
Qed.
End filter_join.

Lemma join_fmap_flat_map {A B} (f : A → list B) (l : list A) :
  mjoin (f <$> l) = flat_map f l.
Proof. induction l as [|x l IH]; [done|]. simpl. by rewrite <-IH. Qed.

Lemma flat_map_ext_elem {A B} (f g : A → list B) (l : list A) :
  (∀ a, a ∈ l → f a = g a) → flat_map f l = flat_map g l.
Proof.
  induction l as [|x l IH]; intros Hfg; [done|]. simpl.
  rewrite Hfg by left. rewrite IH; [done|].
  intros a Ha. apply Hfg. by right.
Qed.

Lemma flat_map_length_const {A B} (f : A → list B) (l : list A) (c : nat) :
  (∀ a, a ∈ l → length (f a) = c) →
  length (flat_map f l) = (length l * c)%nat.
Proof.
  induction l as [|x l IH]; intros Hf; [done|]. simpl.
  rewrite length_app, Hf by left. rewrite IH; [lia|].
  intros a Ha. apply Hf. by right.
Qed.

(** In a list without repetition, all elements but one differ from a given
    element of the list. *)
Lemma filter_ne_length {A} `{!EqDecision A} (l : list A) (x : A) :
  NoDup l → x ∈ l → length (filter (fun y => x ≠ y) l) = (length l - 1)%nat.
Proof.
  induction 1 as [|y l Hy Hnd IH]; intros Hx; [by apply elem_of_nil in Hx|].
  destruct (decide (x = y)) as [->|Hne].
  - rewrite filter_cons_False by (intros ?; done).
    rewrite filter_all; [simpl; lia|].
    apply Forall_forall. intros z Hz ->. done.
  - rewrite filter_cons_True by done. simpl.
    apply elem_of_cons in Hx as [?|Hx]; [done|].
    rewrite IH by done.
    destruct l; [by apply elem_of_nil in Hx | simpl; lia].
Qed.

Lemma item_refs_values k outfit : value <$> item_refs k outfit = Items outfit.
Proof.
  apply list_eq. intros j. rewrite list_lookup_fmap.
  unfold item_refs. rewrite list_lookup_imap.
  by destruct (Items outfit !! j).
Qed.

Lemma positive_samples_length item items :
  length (positive_samples item items)
  = length (filter (fun v => value item ≠ v) (value <$> items)).
Proof.
  unfold positive_samples. induction items as [|c items IH]; [done|].
  rewrite fmap_cons. simpl. rewrite length_app, IH.
  case_bool_decide.
  - rewrite filter_cons_True; [|exact H]. reflexivity.
  - rewrite filter_cons_False; [|by intros Hne]. reflexivity.
Qed.

(** An outfit of [N] items that differ from one another gives [N * (N - 1)]
    positive samples. *)
Lemma positives_of_outfit_length k outfit :
  NoDup (Items outfit) →
  length (positives_of_outfit k outfit)
  = (length (Items outfit) * (length (Items outfit) - 1))%nat.
Proof.
  intros Hnd. unfold positives_of_outfit.
  rewrite (flat_map_length_const _ _ (length (Items outfit) - 1)).
  - by rewrite item_refs_length.
  - intros a Ha. rewrite positive_samples_length, item_refs_values.
    apply filter_ne_length; [done|].
    apply item_refs_elem in Ha as [_ Ha]. by eapply list_elem_of_lookup_2.
Qed.

(** For such an outfit the positive samples are the ordered pairs of two
    different positions. *)
Lemma positives_of_outfit_pairs k outfit :
  NoDup (Items outfit) → positives_of_outfit k outfit = ordered_pairs k outfit.
Proof.
  intros Hnd. unfold positives_of_outfit, ordered_pairs, positive_samples.
  apply flat_map_ext_elem. intros a Ha.
  apply flat_map_ext_elem. intros b Hb.
  apply item_refs_elem in Ha as [_ Ha]. apply item_refs_elem in Hb as [_ Hb].
  destruct (decide (at_pos a = at_pos b)) as [Heq|Hne].
  - rewrite !bool_decide_eq_false_2; [done| |]; [by intros [] |].
    intros Hv. apply Hv. rewrite Heq in Ha. congruence.
  - rewrite !bool_decide_eq_true_2; [done|done|].
    intros Hv. apply Hne. rewrite <-Hv in Hb.
    by eapply (NoDup_lookup _ _ _ _ Hnd).
Qed.

Lemma item_block_targets d neg outfit items item xs :
  item_block d neg outfit items item xs → Forall (fun s => target s = item) xs.
Proof.
  intros (negs & -> & _ & Hnegs). apply Forall_app. split.
  - apply Forall_forall. intros s Hs.
    by apply positive_samples_elem in Hs as (c & _ & _ & ->).
  - eapply Forall_impl; [exact Hnegs|]. by intros s [? _].
Qed.

Lemma item_block_filter d neg outfit items item xs :
  item_block d neg outfit items item xs →
  filter (positive_of (at_outfit item)) xs = positive_samples item items
  ∧ length (filter (negative_of (at_outfit item)) xs) = Z.to_nat neg
  ∧ length xs = (length (positive_samples item items) + Z.to_nat neg)%nat.
Proof.
  intros (negs & -> & Hlen & Hnegs).
  assert (Forall (positive_of (at_outfit item)) (positive_samples item items))
    as Hpos.
  { apply Forall_forall. intros s Hs.
    by apply positive_samples_elem in Hs as (c & _ & _ & ->). }
  assert (Forall (negative_of (at_outfit item)) negs) as Hneg.
  { eapply Forall_impl; [exact Hnegs|].
    intros s (Ht & Hl & _). split; [done | by rewrite Ht]. }
  repeat split.
  - rewrite filter_app, (filter_all _ _ Hpos), filter_none;
      [by rewrite app_nil_r|].
    eapply Forall_impl; [exact Hneg|]. intros s [Hl _] [Hl' _]. congruence.
  - rewrite filter_app, (filter_all _ _ Hneg), filter_none; [done|].
    eapply Forall_impl; [exact Hpos|]. intros s [Hl _] [Hl' _]. congruence.
  - by rewrite length_app, Hlen.
Qed.

Lemma item_blocks_filter d neg outfit items k its per_item :
  Forall (fun a => at_outfit a = k) its →
  Forall2 (item_block d neg outfit items) its per_item →
  filter (positive_of k) (mjoin per_item)
  = flat_map (fun item => positive_samples item items) its
  ∧ length (filter (negative_of k) (mjoin per_item))
    = (Z.to_nat neg * length its)%nat
  ∧ length (mjoin per_item)
    = (length (flat_map (fun item => positive_samples item items) its)
       + Z.to_nat neg * length its)%nat.
Proof.
  intros Hk Hblocks. induction Hblocks as [|a xs its per_item Hb _ IH].
  - simpl. repeat split; lia.
  - apply Forall_cons in Hk as [<- Hk].
    destruct (IH Hk) as (IHp & IHn & IHl).
    destruct (item_block_filter _ _ _ _ _ _ Hb) as (Hp & Hn & Hl).
    simpl. rewrite !filter_app, !length_app, Hp, IHp, Hn, IHn, Hl, IHl.
    repeat split; lia.
Qed.

Lemma outfit_block_filter d neg k outfit block :
  outfit_block d neg (k, outfit) block →
  filter (positive_of k) block = positives_of_outfit k outfit
  ∧ length (filter (negative_of k) block)
    = (Z.to_nat neg * length (Items outfit))%nat
  ∧ length block = outfit_count neg (k, outfit).
Proof.
  intros (per_item & -> & Hblocks). simpl in Hblocks.
  unfold outfit_count, positives_of_outfit. simpl.
  rewrite <-(item_refs_length k outfit).
  apply item_blocks_filter with (d := d) (outfit := outfit); [|done].
  apply Forall_forall. intros a Ha. by apply item_refs_elem in Ha as [? _].
Qed.

Lemma outfit_block_targets d neg k outfit block :
  outfit_block d neg (k, outfit) block →
  Forall (fun s => at_outfit (target s) = k) block.
Proof.
  intros (per_item & -> & Hblocks). simpl in Hblocks.
  apply Forall_join. apply Forall_forall. intros xs Hxs.
  apply list_elem_of_lookup in Hxs as [j Hj].
  destruct (Forall2_lookup_r _ _ _ _ _ Hblocks Hj) as (item & Hitem & Hb).
  apply list_elem_of_lookup_2, item_refs_elem in Hitem as [Hk _].
  eapply Forall_impl; [by eapply item_block_targets|].
  intros s ->. done.
Qed.

(** The number of samples built depends on the dataset and on the number
    of negatives asked for, and on nothing else. *)
Lemma built_from_length d neg built :
  built_from d neg built → length built = sample_count d neg.
Proof.
  intros (per_outfit & -> & Hblocks). unfold sample_count.
  rewrite length_join. f_equal.
  induction Hblocks as [|[k o] block kos blocks Hb _ IH]; [done|].
  rewrite !fmap_cons. f_equal; [|exact IH].
  by apply outfit_block_filter in Hb as (_ & _ & ?).
Qed.

(** The samples of the built list whose target lies in the outfit at
    position [k]. *)
Lemma built_from_filter d neg built k outfit :
  built_from d neg built → d !! k = Some outfit →
  filter (positive_of k) built = positives_of_outfit k outfit
  ∧ length (filter (negative_of k) built)
    = (Z.to_nat neg * length (Items outfit))%nat.
Proof.
  intros (per_outfit & -> & Hblocks) Hk.
  assert (enumerate d !! k = Some (k, outfit)) as Hko
    by by apply enumerate_lookup.
  destruct (Forall2_lookup_l _ _ _ _ _ Hblocks Hko) as (block & Hblock & Hb).
  assert (∀ (Q : nat → Sample → Prop) j b,
            (∀ i s, Q i s → at_outfit (target s) = i) →
            per_outfit !! j = Some b → j ≠ k →
            Forall (fun s => ¬ Q k s) b) as Hother.
  { intros Q j b HQ Hj Hne.
    destruct (Forall2_lookup_r _ _ _ _ _ Hblocks Hj) as ([j' o] & Hjo & Hbj).
    apply enumerate_lookup in Hjo as [Heq _]. simpl in Heq. subst j'.
    eapply Forall_impl; [by eapply outfit_block_targets|].
    intros s Hs HQs. apply HQ in HQs. congruence. }
  rewrite (filter_join_single (positive_of k) _ k block Hblock)
    by (intros j b; apply (Hother positive_of); by intros i s [_ ?]).
  rewrite (filter_join_single (negative_of k) _ k block Hblock)
    by (intros j b; apply (Hother negative_of); by intros i s [_ ?]).
  by apply outfit_block_filter in Hb as (? & ? & _).
Qed.

(** C3, as the program has it. Take a run of [generate_samples] that
    returns and truncates nothing, and an outfit of the dataset whose [N]
    items differ from one another as dictionaries.  The positive samples
    with a target in that outfit are, up to their order, the ordered pairs
    of two different positions of the outfit; there are [N * (N - 1)] of
    them; and there are [neg_sample_count * N] negative samples with a
    target in that outfit. *)
Theorem samples_of_each_outfit self w self' w' d (k : nat) outfit :
  generate_samples self w = Done self' w' →
  data self' = Some d →
  d !! k = Some outfit →
  samples_count_limit self = -1
  ∨ Z.of_nat (sample_count d (neg_sample_count self)) ≤ samples_count_limit self →
  NoDup (Items outfit) →
  filter (positive_of k) (sample_list self') ≡ₚ ordered_pairs k outfit
  ∧ length (ordered_pairs k outfit)
    = (length (Items outfit) * (length (Items outfit) - 1))%nat
  ∧ length (filter (negative_of k) (sample_list self'))
    = (Z.to_nat (neg_sample_count self) * length (Items outfit))%nat.
Proof.
  intros Hrun Hd Hk Hlim Hnd.
  apply sample_list_Done in Hrun as (d' & built & shuffled & Hd' & Hb & Hp & ->).
  rewrite Hd in Hd'. injection Hd' as <-.
  rewrite truncated_all
    by (rewrite (Permutation_length Hp), (built_from_length _ _ _ Hb); done).
  destruct (built_from_filter _ _ _ _ _ Hb Hk) as [Hpos Hneg].
  rewrite <-positives_of_outfit_pairs by done.
  rewrite Hp, Hpos, Hneg.
  split; [done|]. split; [|done].
  by apply positives_of_outfit_length.
Qed.

Lemma samples_of_each_outfit_witness :
  ∃ self' w',
    generate_samples (generator_of 1 2 (-1) (-1))
      (world_of (zeros 10) (Json two_outfits)) = Done self' w'
    ∧ filter (positive_of 0) (sample_list self')
      ≡ₚ ordered_pairs 0 (mkOutfit 7 [item_of "a"; item_of "b"])
    ∧ length (ordered_pairs 0 (mkOutfit 7 [item_of "a"; item_of "b"]))
      = (2 * (2 - 1))%nat
    ∧ length (filter (negative_of 0) (sample_list self')) = (1 * 2)%nat.
Proof.
  eexists _, _. split; [vm_compute; reflexivity|].
  eapply (samples_of_each_outfit (generator_of 1 2 (-1) (-1))
            (world_of (zeros 10) (Json two_outfits)) _ _ two_outfits 0
            (mkOutfit 7 [item_of "a"; item_of "b"])).
  - vm_compute. reflexivity.
  - reflexivity.
  - reflexivity.
  - left. reflexivity.
  - apply (bool_decide_unpack _). vm_compute. exact I.
Defined.

(** C3 as stated fails: an outfit that lists the same dictionary twice,
    next to a third item, gives 4 positive samples and not 3 * 2. *)
Lemma samples_of_each_outfit_counterexample :
  ∃ self' w',
    generate_samples (generator_of 0 2 (-1) (-1))
      (world_of (zeros 10)
         (Json [mkOutfit 7 [item_of "a"; item_of "a"; item_of "b"]]))
    = Done self' w'
    ∧ length (filter (positive_of 0) (sample_list self')) = 4%nat
    ∧ length (filter (positive_of 0) (sample_list self')) ≠ (3 * (3 - 1))%nat.
Proof.
  eexists _, _. split; [vm_compute; reflexivity|].
  split; [vm_compute; reflexivity|]. vm_compute. discriminate.
Qed.

(** ** Cutting the samples into batches *)

Lemma chunks_join {A} (size : nat) (xs open : list A) :
  mjoin (chunks size xs open) = open ++ survivors size xs (length open).
Proof.
  revert open. induction xs as [|x xs IH]; intros open; simpl.
  - destruct open; simpl; by rewrite ?app_nil_r.
  - destruct (length open <? size)%nat.
    + rewrite IH, length_app. simpl.
      replace (length open + 1)%nat with (S (length open)) by lia.
      by rewrite <-app_assoc.
    + simpl. by rewrite IH.
Qed.

(** Among the positions [s], [s + 1], ... the ones left out are those at
    which the open group is full: one in every [size + 1]. *)
Lemma survivors_seq (size s n fill x : nat) :
  (fill ≤ size)%nat →
  x ∈ survivors size (seq s n) fill ↔
  (s ≤ x < s + n)%nat ∧ ((x - s + fill) mod (size + 1) ≠ size)%nat.
Proof.
  revert s fill. induction n as [|n IH]; intros s fill Hfill; simpl.
  - split; [by intros ?%elem_of_nil | lia].
  - destruct (fill <? size)%nat eqn:Hlt.
    + apply Nat.ltb_lt in Hlt. rewrite elem_of_cons, IH by lia. split.
      * intros [->|[Hx Hmod]].
        -- split; [lia|]. rewrite Nat.sub_diag. simpl.
           rewrite Nat.mod_small; lia.
        -- split; [lia|].
           by replace (x - s + fill)%nat with (x - S s + S fill)%nat by lia.
      * intros [Hx Hmod]. destruct (decide (x = s)) as [->|Hne]; [by left|].
        right. split; [lia|].
        by replace (x - S s + S fill)%nat with (x - s + fill)%nat by lia.
    + apply Nat.ltb_ge in Hlt. assert (fill = size) as -> by lia.
      rewrite IH by lia. split.
      * intros [Hx Hmod]. split; [lia|].
        replace (x - s + size)%nat with (x - S s + 0 + 1 * (size + 1))%nat by lia.
        by rewrite Nat.Div0.mod_add.
      * intros [Hx Hmod]. destruct (decide (x = s)) as [->|Hne].
        -- exfalso. apply Hmod. rewrite Nat.sub_diag. simpl.
           rewrite Nat.mod_small; lia.
        -- split; [lia|].
           replace (x - s + size)%nat
             with (x - S s + 0 + 1 * (size + 1))%nat in Hmod by lia.
           by rewrite Nat.Div0.mod_add in Hmod.
Qed.

(** As soon as the open group gets full with elements still to come, an
    element is left out. *)
Lemma survivors_length_lt {A} (size : nat) (xs : list A) (fill : nat) :
  (fill ≤ size)%nat → (size < length xs + fill)%nat →
  (length (survivors size xs fill) < length xs)%nat.
Proof.
  assert (∀ (ys : list A) c, (length (survivors size ys c) ≤ length ys)%nat)
    as Hle.
  { induction ys as [|y ys IH]; intros c; simpl; [lia|].
    destruct (c <? size)%nat; simpl; [specialize (IH (S c)) | specialize (IH 0%nat)]; lia. }
  revert fill. induction xs as [|x xs IH]; intros fill Hfill Hlong; simpl in *.
  - lia.
  - destruct (fill <? size)%nat eqn:Hlt.
    + apply Nat.ltb_lt in Hlt. simpl.
      specialize (IH (S fill)). lia.
    + specialize (Hle xs 0%nat). lia.
Qed.

Lemma enumerate_from_0 {A} (l : list A) : enumerate l = enumerate_from 0 l.
Proof. reflexivity. Qed.

Lemma enumerate_from_cons {A} (i : nat) (x : A) (l : list A) :
  enumerate_from i (x :: l) = (i, x) :: enumerate_from (S i) l.
Proof.
  unfold enumerate_from. rewrite imap_cons, Nat.add_0_r. f_equal.
  apply imap_ext. intros j y _. simpl. f_equal. lia.
Qed.

Lemma image_of_images self w w0 item :
  images w = images w0 → image_of self w item = image_of self w0 item.
Proof. unfold image_of. by intros ->. Qed.

Lemma prep_item_Done self item w t w' :
  prep_item self item w = Done t w' →
  image_of self w item = Some t ∧ images w' = images w.
Proof.
  unfold prep_item, image_of. case_bool_decide; [|discriminate].
  destruct (value item !! "ImagePath") as [path|]; [|discriminate].
  unfold bind, emit. simpl.
  destruct (images w (images_path self +:+ path)); [|discriminate].
  by intros [= <- <-].
Qed.

Lemma index_Done {A} (l : list A) i w x w' :
  index l i w = Done x w' → l !! i = Some x ∧ w' = w.
Proof.
  unfold index. destruct (l !! i); [|discriminate].
  unfold ret. by intros [= <- <-].
Qed.

Lemma batch_of_images self w w0 targets contexts labels group b :
  images w = images w0 →
  batch_of self w targets contexts labels group b →
  batch_of self w0 targets contexts labels group b.
Proof.
  intros Himg (Ht & Hc & Hl). repeat split; [| |done].
  - eapply Forall2_impl; [exact Ht|]. simpl. intros i t (x & Hx & Hi).
    exists x. by rewrite <-(image_of_images self w w0).
  - eapply Forall2_impl; [exact Hc|]. simpl. intros i t (x & Hx & Hi).
    exists x. by rewrite <-(image_of_images self w w0).
Qed.

(** The loop of [generate_batches] cuts the positions of the samples the
    way [chunks] does, and each batch it yields holds the samples at the
    positions of its group. *)
Lemma batch_loop_groups self w0 targets contexts labels :
  ∀ rest_targets i current_size batched group w batches w',
    images w = images w0 →
    (∀ j x, rest_targets !! j = Some x → targets !! (i + j)%nat = Some x) →
    current_size = Z.of_nat (length group) →
    batch_of self w0 targets contexts labels group batched →
    batch_loop self contexts labels (enumerate_from i rest_targets)
      current_size batched w = Done batches w' →
    Forall2 (batch_of self w0 targets contexts labels)
      (chunks (Z.to_nat (batch_size self)) (seq i (length rest_targets)) group)
      batches
    ∧ images w' = images w0.
Proof.
  induction rest_targets as [|target rest IH];
    intros i cur batched group w batches w' Himg Htargets -> Hbatched Hrun.
  - simpl in *. apply ret_Done in Hrun as [<- <-]. split; [|done].
    destruct group as [|g group]; simpl; [constructor|].
    constructor; [exact Hbatched | constructor].
  - rewrite enumerate_from_cons in Hrun. simpl in *.
    destruct (Z.of_nat (length group) <? batch_size self) eqn:Hlt.
    + apply Z.ltb_lt in Hlt.
      rewrite (proj2 (Nat.ltb_lt (length group) (Z.to_nat (batch_size self))))
        by lia.
      invert_bind Hrun.
      apply prep_item_Done in Hrun0 as [Ht Himg0].
      apply index_Done in Hrun1 as [Hc ->].
      apply prep_item_Done in Hrun2 as [Hcx Himg2].
      apply index_Done in Hrun3 as [Hl ->].
      eapply (IH (S i)); [| | |..|exact Hrun].
      * congruence.
      * intros j x Hj. replace (S i + j)%nat with (i + S j)%nat by lia.
        by apply Htargets.
      * rewrite length_app. simpl. lia.
      * destruct Hbatched as (Hbt & Hbc & Hbl).
        repeat split; simpl; apply Forall2_app; try done;
          repeat constructor.
        -- exists target. split.
           ++ specialize (Htargets 0%nat target eq_refl).
              by rewrite Nat.add_0_r in Htargets.
           ++ by rewrite <-(image_of_images self w w0).
        -- exists a0. split; [done|].
           rewrite <-(image_of_images self w1 w0) by congruence. done.
        -- done.
    + apply Z.ltb_ge in Hlt.
      rewrite (proj2 (Nat.ltb_ge (length group) (Z.to_nat (batch_size self))))
        by lia.
      invert_bind Hrun. apply ret_Done in Hrun as [<- <-].
      pose proof (fun Ht Hb =>
                    IH (S i) 0 empty_batch [] w _ _ Himg Ht eq_refl Hb Hrun0)
        as Hlater.
      destruct Hlater as [Hlater Himg'].
      * intros j x Hj. replace (S i + j)%nat with (i + S j)%nat by lia.
        by apply Htargets.
      * repeat split; constructor.
      * split; [|done]. by constructor.
Qed.

Lemma epoch_pass_Done self w self' batches w' :
  epoch_pass self w = Done (self', batches) w' →
  ∃ couples labels w1,
    generate_samples self w = Done self' w1
    ∧ samples self' = Some (couples, labels)
    ∧ couples ≠ []
    ∧ batch_loop self' (snd <$> couples) labels (enumerate (fst <$> couples))
        0 empty_batch w1 = Done batches w'.
Proof.
  unfold epoch_pass. intros H. invert_bind H.
  destruct (samples a) as [[couples labels]|] eqn:Hs; [|discriminate].
  invert_bind H. apply ret_Done in H as [[= <- <-] <-].
  unfold unzip_couples in Hrun0.
  destruct couples as [|c couples]; [discriminate|].
  apply ret_Done in Hrun0 as [<- <-].
  exists (c :: couples), labels, w0. by repeat split.
Qed.

Lemma batches_length self w targets contexts labels groups batches :
  Forall2 (batch_of self w targets contexts labels) groups batches →
  length (mjoin (batched_labels <$> batches)) = length (mjoin groups).
Proof.
  induction 1 as [|g b groups batches (_ & _ & Hl) _ IH]; [done|].
  rewrite fmap_cons. simpl. rewrite !length_app, IH.
  by rewrite (Forall2_length _ _ _ Hl).
Qed.

(** C10. In a round of [generate_batches] that runs to its end, with [n]
    samples generated and batch size [b], the batches yielded hold exactly the
    samples at the positions grouped by [chunks]: the position that follows
    each full group, the one at which the full batch is yielded, is in no
    group, and every other position is in one.  So whenever [n > b] the
    batches of the round hold fewer than [n] samples. *)
Theorem triggering_sample_is_discarded self w self' batches w' :
  epoch_pass self w = Done (self', batches) w' →
  ∃ couples labels,
    samples self' = Some (couples, labels)
    ∧ Forall2 (batch_of self' w' (fst <$> couples) (snd <$> couples) labels)
        (chunks (Z.to_nat (batch_size self)) (seq 0 (length couples)) [])
        batches
    ∧ (∀ i : nat,
         i ∈ mjoin (chunks (Z.to_nat (batch_size self))
                      (seq 0 (length couples)) [])
         ↔ (i < length couples)%nat
           ∧ (i mod (Z.to_nat (batch_size self) + 1)
              ≠ Z.to_nat (batch_size self))%nat)
    ∧ (batch_size self < Z.of_nat (length couples) →
       (length (mjoin (batched_labels <$> batches)) < length couples)%nat).
Proof.
  intros Hrun.
  apply epoch_pass_Done in Hrun as (couples & labels & w1 & Hgen & Hs & Hne & Hloop).
  apply generate_samples_Done in Hgen
    as (d & built & shuffled & _ & _ & _ & _ & _ & _ & _ & _ & Hb & _).
  exists couples, labels. split; [done|].
  rewrite enumerate_from_0 in Hloop.
  assert (batch_of self' w1 (fst <$> couples) (snd <$> couples) labels
            [] empty_batch) as Hempty by (repeat split; constructor).
  destruct (batch_loop_groups self' w1 (fst <$> couples) (snd <$> couples)
              labels (fst <$> couples) 0%nat 0 empty_batch [] w1 batches w'
              eq_refl (fun j x Hj => Hj) eq_refl Hempty Hloop)
    as [Hgroups Himg]. symmetry in Himg.
  simpl in Hgroups. rewrite length_fmap, Hb in Hgroups.
  assert (Forall2 (batch_of self' w' (fst <$> couples) (snd <$> couples) labels)
            (chunks (Z.to_nat (batch_size self)) (seq 0 (length couples)) [])
            batches) as Hgroups'.
  { eapply Forall2_impl; [exact Hgroups|].
    intros g b. by apply batch_of_images. }
  split; [done|]. split.
  - intros i. rewrite chunks_join. simpl.
    rewrite survivors_seq by lia.
    rewrite Nat.sub_0_r, Nat.add_0_r.
    split; intros [Hi Hmod]; (split; [lia | done]).
  - intros Hlong. rewrite (batches_length _ _ _ _ _ _ _ Hgroups').
    rewrite chunks_join. simpl.
    pose proof (survivors_length_lt (Z.to_nat (batch_size self))
                  (seq 0 (length couples)) 0%nat) as Hlt.
    rewrite length_seq in Hlt. apply Hlt; [lia|].
    destruct couples; [done|]. simpl in *. lia.
Qed.

Lemma triggering_sample_is_discarded_witness :
  ∃ self' batches w',
    epoch_pass (generator_of 0 2 (-1) (-1))
      (world_of (zeros 10)
         (Json [mkOutfit 7 [item_of "a"; item_of "b"; item_of "c"]]))
    = Done (self', batches) w'
    ∧ ∃ couples labels,
        samples self' = Some (couples, labels)
        ∧ Forall2 (batch_of self' w' (fst <$> couples) (snd <$> couples) labels)
            (chunks (Z.to_nat 2) (seq 0 (length couples)) []) batches
        ∧ (∀ i : nat,
             i ∈ mjoin (chunks (Z.to_nat 2) (seq 0 (length couples)) [])
             ↔ (i < length couples)%nat
               ∧ (i mod (Z.to_nat 2 + 1) ≠ Z.to_nat 2)%nat)
        ∧ (2 < Z.of_nat (length couples) →
           (length (mjoin (batched_labels <$> batches)) < length couples)%nat).
Proof.
  eexists _, _, _. split; [vm_compute; reflexivity|].
  eapply (triggering_sample_is_discarded (generator_of 0 2 (-1) (-1))
            (world_of (zeros 10)
               (Json [mkOutfit 7 [item_of "a"; item_of "b"; item_of "c"]]))).
  vm_compute. reflexivity.
Defined.

(** ** The number of steps and the number of full batches *)


(** C2 fails on the program. One outfit of three items and no negative
    samples give 6 samples; with batch size 2, [steps_per_epoch] is 3, and
    a round of [generate_batches] yields two batches of two samples and
    nothing else: the samples at positions 2 and 5 are in no batch. *)
Theorem fewer_full_batches_than_steps :
  ∃ self' batches w',
    epoch_pass (generator_of 0 2 (-1) (-1))
      (world_of (zeros 10)
         (Json [mkOutfit 7 [item_of "a"; item_of "b"; item_of "c"]]))
    = Done (self', batches) w'
    ∧ length (sample_list self') = 6%nat
    ∧ steps_per_epoch self' = Some 3
    ∧ (length ∘ batched_labels) <$> batches = [2%nat; 2%nat].
Proof.
  eexists _, _, _. split; [vm_compute; reflexivity|].
  repeat split; vm_compute; reflexivity.
Qed.

(** * Further properties of the program *)

(** ** What a run of [generate_samples] stores *)


Lemma collect_data_configuration self w self' w' :
  collect_data self w = Done self' w' → same_configuration self' self.
Proof.
  intros H. apply collect_data_Done in H as [d ->]. by repeat split.
Qed.

(** [generate_samples] changes [data], [steps_per_epoch] and [samples] and
    leaves the configuration alone. *)
Lemma generate_samples_configuration self w self' w' :
  generate_samples self w = Done self' w' → same_configuration self' self.
Proof.
  unfold generate_samples. intros H. invert_bind H.
  apply ret_Done in H as [<- _].
  assert (same_configuration a self) as Hconf.
  { destruct (data self).
    - apply ret_Done in Hrun as [<- _]. by repeat split.
    - by eapply collect_data_configuration. }
  destruct Hconf as (? & ? & ? & ? & ? & ? & ?). by repeat split.
Qed.

Lemma truncated_configuration a b l :
  same_configuration a b → truncated a l = truncated b l.
Proof. intros (_ & Hlim & _). unfold truncated. by rewrite Hlim. Qed.

(** The samples that a run stores: two lists of the same length, not
    empty, with labels 0 and 1 only; and the batch size is not zero. *)
Theorem stored_samples_are_parallel self w self' w' :
  generate_samples self w = Done self' w' →
  ∃ couples labels,
    samples self' = Some (couples, labels)
    ∧ length couples = length labels
    ∧ (0 < length couples)%nat
    ∧ Forall (fun l => l = 0 ∨ l = 1) labels
    ∧ batch_size self ≠ 0.
Proof.
  intros Hrun. apply generate_samples_Done in Hrun
    as (d & built & shuffled & _ & _ & Hb & Hp & Hs & Hne & Hbatch & _).
  eexists _, _. split; [exact Hs|].
  rewrite !length_fmap. split; [done|]. split.
  { destruct (truncated self shuffled); [done | simpl; lia]. }
  split; [|done].
  apply Forall_fmap, Forall_forall. intros s Hs'.
  apply truncated_subseteq in Hs'. rewrite Hp in Hs'.
  destruct (built_from_elem _ _ _ _ Hb Hs')
    as (k & o & item & _ & _ & [Hpos|Hneg]).
  - apply positive_samples_elem in Hpos as (c & _ & _ & ->). by right.
  - destruct Hneg as (_ & Hl & _). by left.
Qed.

Lemma stored_samples_are_parallel_witness :
  ∃ self' w',
    generate_samples (generator_of 1 2 (-1) (-1))
      (world_of (zeros 10) (Json two_outfits)) = Done self' w'
    ∧ ∃ couples labels,
        samples self' = Some (couples, labels)
        ∧ length couples = length labels
        ∧ (0 < length couples)%nat
        ∧ Forall (fun l => l = 0 ∨ l = 1) labels
        ∧ (2 : Z) ≠ 0.
Proof.
  eexists _, _. split; [vm_compute; reflexivity|].
  eapply (stored_samples_are_parallel (generator_of 1 2 (-1) (-1))
            (world_of (zeros 10) (Json two_outfits))).
  vm_compute. reflexivity.
Defined.

(** The number of samples stored: all that the loops built when nothing is
    cut, and exactly [samples_count_limit] of them when that limit is not
    negative and below the number built. *)
Theorem stored_sample_count self w self' w' d :
  generate_samples self w = Done self' w' →
  data self' = Some d →
  (samples_count_limit self = -1
   ∨ Z.of_nat (sample_count d (neg_sample_count self)) ≤ samples_count_limit self →
   length (sample_list self') = sample_count d (neg_sample_count self))
  ∧ (0 ≤ samples_count_limit self
       < Z.of_nat (sample_count d (neg_sample_count self)) →
     Z.of_nat (length (sample_list self')) = samples_count_limit self).
Proof.
  intros Hrun Hd.
  apply sample_list_Done in Hrun as (d' & built & shuffled & Hd' & Hb & Hp & ->).
  rewrite Hd in Hd'. injection Hd' as <-.
  pose proof (built_from_length _ _ _ Hb) as Hlen.
  rewrite <-(Permutation_length Hp) in Hlen. split.
  - intros Hlim. rewrite truncated_all; [done | by rewrite Hlen].
  - intros [Hlo Hhi]. unfold truncated.
    rewrite bool_decide_eq_true_2 by lia.
    rewrite (proj2 (Z.ltb_lt _ _)) by lia. simpl.
    rewrite slice_to_nonneg, length_take by done. lia.
Qed.

Lemma stored_sample_count_witness :
  ∃ self' w',
    generate_samples (generator_of 1 2 (-1) 3)
      (world_of (zeros 10) (Json two_outfits)) = Done self' w'
    ∧ Z.of_nat (length (sample_list self')) = 3.
Proof.
  eexists _, _. split; [vm_compute; reflexivity|].
  eapply (stored_sample_count (generator_of 1 2 (-1) 3)
            (world_of (zeros 10) (Json two_outfits)) _ _ two_outfits).
  - vm_compute. reflexivity.
  - reflexivity.
  - vm_compute. split; [discriminate | reflexivity].
Defined.

Lemma truncated_length self (l l' : list Sample) :
  length l = length l' →
  length (truncated self l) = length (truncated self l').
Proof.
  intros Hlen. unfold truncated, slice_to. rewrite Hlen.
  destruct (_ && _); [|done].
  destruct (_ <? 0); by rewrite !length_take, Hlen.
Qed.

Lemma dataset_in_use_loaded self w d :
  data self = Some d → dataset_in_use self w = Some d.
Proof. unfold dataset_in_use. by intros ->. Qed.

(** Generating the samples again, on any tape, gives as many samples as
    before and the same [steps_per_epoch]: the number that [fit] reads
    once stays right for every later round of [generate_batches]. *)
Theorem regenerated_samples_same_number self w self1 w1 w2 self2 w3 :
  generate_samples self w = Done self1 w1 →
  generate_samples self1 w2 = Done self2 w3 →
  length (sample_list self2) = length (sample_list self1)
  ∧ steps_per_epoch self2 = steps_per_epoch self1.
Proof.
  intros Hrun1 Hrun2.
  pose proof (generate_samples_configuration _ _ _ _ Hrun1) as Hconf.
  pose proof Hconf as (_ & _ & Hbatch & Hneg & _).
  apply generate_samples_Done in Hrun1
    as (d & built & shuffled & _ & Hd & Hb & Hp & Hs & _ & _ & Hsteps & _).
  apply generate_samples_Done in Hrun2
    as (d' & built' & shuffled' & Huse & _ & Hb' & Hp' & Hs' & _ & _ & Hsteps' & _).
  rewrite (dataset_in_use_loaded _ _ _ Hd) in Huse. injection Huse as <-.
  rewrite Hneg in Hb'.
  assert (length shuffled' = length shuffled) as Hlen.
  { rewrite (Permutation_length Hp), (Permutation_length Hp').
    by rewrite (built_from_length _ _ _ Hb), (built_from_length _ _ _ Hb'). }
  assert (length (truncated self1 shuffled') = length (truncated self shuffled))
    as Htr.
  { rewrite (truncated_length self1 _ _ Hlen).
    by rewrite (truncated_configuration _ _ _ Hconf). }
  unfold sample_list. rewrite Hs, Hs', !zip_fmap_fst_snd.
  split; [done|]. by rewrite Hsteps, Hsteps', Htr, Hbatch.
Qed.

Lemma regenerated_samples_same_number_witness :
  ∃ self1 w1 self2 w3,
    generate_samples (generator_of 1 2 (-1) (-1))
      (world_of (zeros 10) (Json two_outfits)) = Done self1 w1
    ∧ generate_samples self1 (world_of [1; 2; 1; 6; 1; 4; 3; 2; 1; 0]%nat NoSuchFile)
      = Done self2 w3
    ∧ length (sample_list self2) = length (sample_list self1)
    ∧ steps_per_epoch self2 = steps_per_epoch self1.
Proof.
  eexists _, _, _, _. split; [vm_compute; reflexivity|].
  split; [vm_compute; reflexivity|].
  eapply (regenerated_samples_same_number (generator_of 1 2 (-1) (-1))
            (world_of (zeros 10) (Json two_outfits)) _ _
            (world_of [1; 2; 1; 6; 1; 4; 3; 2; 1; 0]%nat NoSuchFile));
    vm_compute; reflexivity.
Defined.

(** ** Which pairs become samples *)

(** A sample labelled 1 pairs two item objects of one outfit of the
    dataset, at different positions and different as dictionaries. *)
Theorem positive_samples_share_outfit self w self' w' d :
  generate_samples self w = Done self' w' →
  data self' = Some d →
  ∀ s, s ∈ sample_list self' → label s = 1 →
    points_into d (target s) ∧ points_into d (context s)
    ∧ at_outfit (target s) = at_outfit (context s)
    ∧ at_pos (target s) ≠ at_pos (context s)
    ∧ value (target s) ≠ value (context s).
Proof.
  intros Hrun Hd.
  apply sample_list_Done in Hrun as (d' & built & shuffled & Hd' & Hb & Hp & ->).
  rewrite Hd in Hd'. injection Hd' as <-. intros s Hs Hlabel.
  apply truncated_subseteq in Hs. rewrite Hp in Hs.
  destruct (built_from_elem _ _ _ _ Hb Hs)
    as (k & o & item & Ho & Hitem & [Hpos|Hneg]).
  - apply positive_samples_elem in Hpos as (c & Hc & Hne & ->).
    apply item_refs_elem in Hitem as [Hk Hv].
    apply item_refs_elem in Hc as [Hk' Hv'].
    unfold target, context, points_into. simpl. rewrite Hk, Hk'.
    repeat split; eauto.
    intros Heq. rewrite Heq in Hv. congruence.
  - destruct Hneg as (_ & Hl & _). congruence.
Qed.

Lemma positive_samples_share_outfit_witness :
  ∃ self' w',
    generate_samples (generator_of 1 2 (-1) (-1))
      (world_of (zeros 10) (Json two_outfits)) = Done self' w'
    ∧ ∀ s, s ∈ sample_list self' → label s = 1 →
        points_into two_outfits (target s) ∧ points_into two_outfits (context s)
        ∧ at_outfit (target s) = at_outfit (context s)
        ∧ at_pos (target s) ≠ at_pos (context s)
        ∧ value (target s) ≠ value (context s).
Proof.
  eexists _, _. split; [vm_compute; reflexivity|].
  eapply (positive_samples_share_outfit (generator_of 1 2 (-1) (-1))
            (world_of (zeros 10) (Json two_outfits)));
    [vm_compute; reflexivity | reflexivity].
Defined.

(** What the test of the retry loop gives: the position of the outfit that
    a negative context is drawn from is never the number stored as
    [SetId] in the target's outfit.  In a dataset whose outfits are
    numbered by their position, every negative context therefore comes
    from another outfit than its target. *)
Theorem negatives_differ_when_numbered self w self' w' d :
  generate_samples self w = Done self' w' →
  data self' = Some d →
  numbered_by_position d →
  ∀ s, s ∈ sample_list self' → label s = 0 →
    at_outfit (context s) ≠ at_outfit (target s).
Proof.
  intros Hrun Hd Hnum s Hs Hlabel.
  apply negative_samples_drawn in Hrun as (d' & Hd' & Hneg).
  rewrite Hd in Hd'. injection Hd' as <-.
  destruct (Hneg s Hs Hlabel) as (o & Ho & _ & _ & _ & Hne & _).
  rewrite (Hnum _ _ Ho) in Hne. congruence.
Qed.

Lemma three_outfits_numbered : numbered_by_position three_outfits.
Proof.
  intros [|[|[|k]]] o Hk; simplify_eq/=; reflexivity.
Qed.

Lemma negatives_differ_when_numbered_witness :
  ∃ self' w',
    generate_samples (generator_of 1 2 (-1) (-1))
      (world_of [1; 0; 0; 0; 0; 0; 0; 0]%nat (Json three_outfits)) = Done self' w'
    ∧ ∀ s, s ∈ sample_list self' → label s = 0 →
        at_outfit (context s) ≠ at_outfit (target s).
Proof.
  eexists _, _. split; [vm_compute; reflexivity|].
  eapply (negatives_differ_when_numbered (generator_of 1 2 (-1) (-1))
            (world_of [1; 0; 0; 0; 0; 0; 0; 0]%nat (Json three_outfits))
            _ _ three_outfits);
    [vm_compute; reflexivity | reflexivity | exact three_outfits_numbered].
Defined.

Lemma built_from_no_negatives d neg built :
  neg ≤ 0 → built_from d neg built → Forall (fun s => label s = 1) built.
Proof.
  intros Hneg (per_outfit & -> & Hblocks).
  apply Forall_join, Forall_forall. intros block Hblock.
  apply list_elem_of_lookup in Hblock as [k Hk].
  destruct (Forall2_lookup_r _ _ _ _ _ Hblocks Hk) as (ko & _ & Hob).
  destruct Hob as (per_item & -> & Hitems).
  apply Forall_join, Forall_forall. intros xs Hxs.
  apply list_elem_of_lookup in Hxs as [j Hj].
  destruct (Forall2_lookup_r _ _ _ _ _ Hitems Hj) as (item & _ & Hib).
  destruct Hib as (negs & -> & Hlen & _).
  destruct negs; [|simpl in Hlen; lia]. rewrite app_nil_r.
  apply Forall_forall. intros s Hs.
  by apply positive_samples_elem in Hs as (c & _ & _ & ->).
Qed.

(** With [neg_sample_count] zero or negative no negative sample is
    generated: every label is 1. *)
Theorem no_negatives_without_count self w self' w' :
  generate_samples self w = Done self' w' →
  neg_sample_count self ≤ 0 →
  ∀ s, s ∈ sample_list self' → label s = 1.
Proof.
  intros Hrun Hneg.
  apply sample_list_Done in Hrun as (d & built & shuffled & _ & Hb & Hp & ->).
  intros s Hs. apply truncated_subseteq in Hs. rewrite Hp in Hs.
  by apply (proj1 (Forall_forall _ _) (built_from_no_negatives _ _ _ Hneg Hb)).
Qed.

Lemma no_negatives_without_count_witness :
  ∃ self' w',
    generate_samples (generator_of 0 2 (-1) (-1))
      (world_of (zeros 10) (Json two_outfits)) = Done self' w'
    ∧ ∀ s, s ∈ sample_list self' → label s = 1.
Proof.
  eexists _, _. split; [vm_compute; reflexivity|].
  eapply (no_negatives_without_count (generator_of 0 2 (-1) (-1))
            (world_of (zeros 10) (Json two_outfits)));
    [vm_compute; reflexivity | simpl; lia].
Defined.

(** ** Loading the dataset, once *)

(** [generate_samples] is [sample_from] on the dataset in use: the one
    already loaded, or else the one that [collect_data] loads. *)
Lemma generate_samples_loaded self w d :
  dataset_in_use self w = Some d →
  ∃ self1 w1,
    generate_samples self w = sample_from self1 d w1
    ∧ same_configuration self1 self
    ∧ tape w1 = tape w
    ∧ (data self = Some d → self1 = self ∧ w1 = w).
Proof.
  unfold dataset_in_use. intros Huse.
  destruct (data self) as [d0|] eqn:Hdata.
  - injection Huse as ->. exists self, w. repeat split; try done.
    unfold generate_samples. rewrite Hdata.
    unfold bind at 1. simpl. rewrite Hdata. reflexivity.
  - destruct (collect_data self w) as [self1 w1| |] eqn:Hcollect;
      [|discriminate|discriminate].
    exists self1, w1. split; [|split; [|split]].
    + unfold generate_samples. rewrite Hdata.
      unfold bind at 1. rewrite Hcollect, Huse. reflexivity.
    + by eapply collect_data_configuration.
    + revert Hcollect. unfold collect_data, bind, emit. simpl.
      destruct (files w (dataset_path self)); [discriminate|discriminate|].
      unfold ret. by intros [= _ <-].
    + discriminate.
Qed.

Lemma truncated_nil self : truncated self [] = [].
Proof.
  unfold truncated, slice_to. destruct (_ && _); [|done].
  destruct (_ <? 0); apply take_nil.
Qed.

(** On an empty dataset [generate_samples] raises: [ValueError] from
    unpacking the empty list of samples, or [ZeroDivisionError] before
    that if the batch size is zero.  No random number is drawn. *)
Theorem empty_dataset_raises self w :
  dataset_in_use self w = Some [] →
  (batch_size self ≠ 0 → raises (generate_samples self w) ValueError)
  ∧ (batch_size self = 0 → raises (generate_samples self w) ZeroDivisionError).
Proof.
  intros Huse.
  destruct (generate_samples_loaded _ _ _ Huse)
    as (self1 & w1 & -> & (_ & _ & Hbatch & _) & _).
  unfold sample_from, build_samples, shuffle. simpl.
  unfold bind at 1 2. simpl. unfold bind at 1. simpl.
  rewrite truncated_nil, Hbatch. unfold floor_div. simpl.
  split; intros Hb.
  - rewrite (proj2 (Z.eqb_neq _ _) Hb). unfold bind at 1. simpl.
    unfold bind at 1. simpl. by eexists _, _.
  - rewrite (proj2 (Z.eqb_eq _ _) Hb). unfold bind at 1. simpl.
    by eexists _, _.
Qed.

Lemma empty_dataset_raises_witness :
  raises (generate_samples (generator_of 5 10 (-1) (-1))
            (world_of [] (Json []))) ValueError.
Proof.
  apply (empty_dataset_raises (generator_of 5 10 (-1) (-1))
           (world_of [] (Json []))); [reflexivity | discriminate].
Defined.

(** ** The retry loop that cannot succeed *)

Lemma bind_Starved {A B} (m : M A) (k : A -> M B) w :
  m w = Starved → bind m k w = Starved.
Proof. unfold bind. by intros ->. Qed.

Lemma for_each_Starved {A B} (body : A -> M B) x l w :
  body x w = Starved → for_each body (x :: l) w = Starved.
Proof. intros H. simpl. by apply bind_Starved. Qed.

(** With one candidate position, 0, and that very number to avoid, the
    loop consumes the whole tape, however long. *)
Lemma draw_outfit_index_Starved w : draw_outfit_index 1 0 w = Starved.
Proof.
  unfold draw_outfit_index. generalize (tape w). intros t.
  induction t as [|r t IH]; [done|]. simpl.
  rewrite Z.mod_1_r. by rewrite bool_decide_eq_false_2 by (intros H; done).
Qed.

(** In a dataset of two outfits the only position that can be drawn is 0.
    If the first outfit has the identifier 0 and holds an item, and a
    negative sample is asked for, the retry loop for that item rejects
    every draw: on every tape, however long, [generate_samples] neither
    returns nor raises. *)
Theorem retry_loop_never_ends self w first second :
  dataset_in_use self w = Some [first; second] →
  SetId first = 0 →
  Items first ≠ [] →
  0 < neg_sample_count self →
  generate_samples self w = Starved.
Proof.
  intros Huse Hid Hitems Hneg.
  destruct (generate_samples_loaded _ _ _ Huse)
    as (self1 & w1 & -> & (_ & _ & _ & Hneg' & _) & _).
  unfold sample_from. rewrite Hneg'.
  apply bind_Starved, bind_Starved, for_each_Starved, bind_Starved. simpl.
  unfold item_refs. destruct (Items first) as [|v items]; [done|]. simpl.
  apply bind_Starved, bind_Starved.
  destruct (Z.to_nat (neg_sample_count self)) as [|n] eqn:Hn; [lia|]. simpl.
  apply bind_Starved, bind_Starved. rewrite Hid.
  apply draw_outfit_index_Starved.
Qed.

Lemma retry_loop_never_ends_witness :
  generate_samples (generator_of 1 2 (-1) (-1))
    (world_of (zeros 1000)
       (Json [mkOutfit 0 [item_of "a"]; mkOutfit 1 [item_of "b"]]))
  = Starved.
Proof.
  apply (retry_loop_never_ends (generator_of 1 2 (-1) (-1))
           (world_of (zeros 1000)
              (Json [mkOutfit 0 [item_of "a"]; mkOutfit 1 [item_of "b"]]))
           (mkOutfit 0 [item_of "a"]) (mkOutfit 1 [item_of "b"]));
    [reflexivity | reflexivity | discriminate | reflexivity].
Defined.

(** ** What the loops and the shuffle do to the world *)

Lemma randrange_io n w j w' : randrange n w = Done j w' → io w' = io w.
Proof. intros H. apply randrange_Done in H as (_ & r & _ & ->). done. Qed.

Lemma retry_outfit_index_io n set_id t w idx w' :
  retry_outfit_index n set_id t w = Done idx w' → io w' = io w.
Proof.
  revert w. induction t as [|r t IH]; intros w; simpl.
  - by destruct (n <=? 0).
  - destruct (n <=? 0); [discriminate|].
    case_bool_decide; [|apply IH]. by intros [= _ <-].
Qed.

Lemma choice_io {A} (seq : list A) w x w' :
  choice seq w = Done x w' → io w' = io w.
Proof.
  unfold choice. destruct seq as [|y seq]; [discriminate|].
  intros H. invert_bind H. apply randrange_io in Hrun.
  destruct (_ !! _); [|discriminate]. by apply ret_Done in H as [_ <-].
Qed.

Lemma negative_sample_io d outfit item w s w' :
  negative_sample d outfit item w = Done s w' → io w' = io w.
Proof.
  unfold negative_sample. intros H. invert_bind H.
  apply ret_Done in H as [_ <-].
  apply retry_outfit_index_io in Hrun.
  apply index_Done in Hrun0 as [_ ->].
  apply choice_io in Hrun1. congruence.
Qed.

Lemma for_each_io {A B} (body : A -> M B) l :
  (∀ a w b w', body a w = Done b w' → io w' = io w) →
  ∀ w bs w', for_each body l w = Done bs w' → io w' = io w.
Proof.
  intros Hbody w bs w' Hrun.
  apply (for_each_world (fun w1 => io w1 = io w) body l) with w bs;
    [|done|done].
  intros a w1 b w2 Hb Hw1. rewrite <-Hw1. by eapply Hbody.
Qed.

Lemma samples_of_item_io d neg outfit items item w xs w' :
  samples_of_item d neg outfit items item w = Done xs w' → io w' = io w.
Proof.
  unfold samples_of_item. intros H. invert_bind H.
  apply ret_Done in H as [_ <-].
  eapply for_each_io; [|exact Hrun].
  intros i wa s wb. apply negative_sample_io.
Qed.

Lemma samples_of_outfit_io d neg ko w block w' :
  samples_of_outfit d neg ko w = Done block w' → io w' = io w.
Proof.
  unfold samples_of_outfit. intros H. invert_bind H.
  apply ret_Done in H as [_ <-].
  eapply for_each_io; [|exact Hrun].
  intros item wa xs wb. apply samples_of_item_io.
Qed.

(** The three loops draw random numbers and do nothing else to the world:
    they read no file and print nothing. *)
Lemma build_samples_io d neg w built w' :
  build_samples d neg w = Done built w' → io w' = io w.
Proof.
  unfold build_samples. intros H. invert_bind H.
  apply ret_Done in H as [_ <-].
  eapply for_each_io; [|exact Hrun].
  intros ko wa block wb. apply samples_of_outfit_io.
Qed.

Lemma shuffle_io {A} (x : list A) w y w' :
  shuffle x w = Done y w' → io w' = io w.
Proof.
  unfold shuffle. generalize (length x - 1)%nat. intros i.
  revert x w. induction i as [|i IH]; intros x w H; simpl in H.
  - by apply ret_Done in H as [_ <-].
  - invert_bind H. apply randrange_io in Hrun. apply IH in H. congruence.
Qed.

(** A generator that has generated samples once holds its dataset, and
    generating again reads nothing: whatever the world has become, the
    second run only prints the number of samples and keeps the dataset. *)
Theorem dataset_is_read_once self w self1 w1 w2 self2 w3 :
  generate_samples self w = Done self1 w1 →
  generate_samples self1 w2 = Done self2 w3 →
  data self2 = data self1
  ∧ io w3 = io w2 ++ [Print (pretty (length (sample_list self2))
                             +:+ " samples generated.")].
Proof.
  intros Hrun1 Hrun2.
  apply generate_samples_Done in Hrun1 as (d & _ & _ & _ & Hd & _).
  pose proof (generate_samples_Done _ _ _ _ Hrun2)
    as (d' & _ & _ & Huse & Hd' & _).
  rewrite (dataset_in_use_loaded _ _ _ Hd) in Huse. injection Huse as <-.
  split; [congruence|].
  destruct (generate_samples_loaded self1 w2 d (dataset_in_use_loaded _ _ _ Hd))
    as (self1' & w2' & Heq & _ & _ & Hsame).
  destruct (Hsame Hd) as [-> ->]. rewrite Heq in Hrun2.
  unfold sample_from in Hrun2. invert_bind Hrun2.
  apply ret_Done in Hrun2 as [<- <-].
  apply build_samples_io in Hrun. apply shuffle_io in Hrun0.
  unfold floor_div in Hrun1. destruct (_ =? 0); [discriminate|].
  apply ret_Done in Hrun1 as [_ <-].
  unfold unzip_samples in Hrun3.
  destruct (truncated self1 a0) as [|s rest] eqn:Htr; [discriminate|].
  apply ret_Done in Hrun3 as [<- <-].
  apply emit_Done in Hrun4 as ->.
  unfold sample_list. simpl. rewrite zip_fmap_fst_snd.
  by rewrite Hrun0, Hrun.
Qed.

Lemma dataset_is_read_once_witness :
  ∃ self1 w1 self2 w3,
    generate_samples (generator_of 1 2 (-1) (-1))
      (world_of (zeros 10) (Json two_outfits)) = Done self1 w1
    ∧ generate_samples self1 (world_of (zeros 10) NoSuchFile) = Done self2 w3
    ∧ data self2 = data self1
    ∧ io w3 = [] ++ [Print (pretty (length (sample_list self2))
                            +:+ " samples generated.")].
Proof.
  eexists _, _, _, _. split; [vm_compute; reflexivity|].
  split; [vm_compute; reflexivity|].
  eapply (dataset_is_read_once (generator_of 1 2 (-1) (-1))
            (world_of (zeros 10) (Json two_outfits)) _ _
            (world_of (zeros 10) NoSuchFile));
    vm_compute; reflexivity.
Defined.

(** ** The shape of the batches *)

Lemma epoch_pass_groups self w self' batches w' :
  epoch_pass self w = Done (self', batches) w' →
  ∃ couples labels,
    samples self' = Some (couples, labels)
    ∧ couples ≠ []
    ∧ Forall2 (batch_of self' w' (fst <$> couples) (snd <$> couples) labels)
        (chunks (Z.to_nat (batch_size self)) (seq 0 (length couples)) [])
        batches.
Proof.
  intros Hrun.
  apply epoch_pass_Done in Hrun
    as (couples & labels & w1 & Hgen & Hs & Hne & Hloop).
  apply generate_samples_configuration in Hgen as (_ & _ & Hb & _).
  exists couples, labels. split; [done|]. split; [done|].
  rewrite enumerate_from_0 in Hloop.
  assert (batch_of self' w1 (fst <$> couples) (snd <$> couples) labels
            [] empty_batch) as Hempty by (repeat split; constructor).
  destruct (batch_loop_groups self' w1 (fst <$> couples) (snd <$> couples)
              labels (fst <$> couples) 0%nat 0 empty_batch [] w1 batches w'
              eq_refl (fun j x Hj => Hj) eq_refl Hempty Hloop)
    as [Hgroups Himg]. symmetry in Himg.
  simpl in Hgroups. rewrite length_fmap, Hb in Hgroups.
  eapply Forall2_impl; [exact Hgroups|].
  intros g b. by apply batch_of_images.
Qed.

Lemma chunks_sizes {A} (size : nat) (xs open : list A) :
  (0 < size)%nat → (length open ≤ size)%nat →
  Forall (fun g => (1 ≤ length g ≤ size)%nat) (chunks size xs open).
Proof.
  intros Hsize. revert open. induction xs as [|x xs IH]; intros open Hopen.
  - simpl. destruct open as [|y open]; [constructor|].
    constructor; [simpl in *; lia | constructor].
  - simpl. destruct (length open <? size)%nat eqn:Hlt.
    + apply Nat.ltb_lt in Hlt. apply IH. rewrite length_app. simpl. lia.
    + apply Nat.ltb_ge in Hlt. constructor; [lia|]. apply IH. simpl. lia.
Qed.

Lemma chunks_full {A} (size : nat) (xs open : list A) :
  (length open ≤ size)%nat →
  ∀ (j : nat) g, chunks size xs open !! j = Some g →
    (S j < length (chunks size xs open))%nat → length g = size.
Proof.
  revert open. induction xs as [|x xs IH]; intros open Hopen j g Hj Hlast.
  - simpl in *. destruct open; simpl in *; lia.
  - simpl in *. destruct (length open <? size)%nat eqn:Hlt.
    + apply Nat.ltb_lt in Hlt.
      apply (IH (open ++ [x])) with j; [|done|done].
      rewrite length_app. simpl. lia.
    + apply Nat.ltb_ge in Hlt. destruct j as [|j]; simpl in *.
      * injection Hj as <-. lia.
      * apply (IH []) with j; [simpl; lia | done | lia].
Qed.

Lemma batch_of_lengths self w targets contexts labels group b :
  batch_of self w targets contexts labels group b →
  length (batched_targets b) = length group
  ∧ length (batched_contexts b) = length group
  ∧ length (batched_labels b) = length group.
Proof.
  intros (Ht & Hc & Hl).
  by rewrite <-(Forall2_length _ _ _ Ht), <-(Forall2_length _ _ _ Hc),
       <-(Forall2_length _ _ _ Hl).
Qed.

(** With a positive batch size, every batch of a round that runs to its
    end holds as many targets as contexts as labels, at least one and at
    most [batch_size]; and every batch but the last holds exactly
    [batch_size]. *)
Theorem batches_are_well_formed self w self' batches w' :
  epoch_pass self w = Done (self', batches) w' →
  0 < batch_size self →
  Forall (fun b =>
            length (batched_targets b) = length (batched_labels b)
            ∧ length (batched_contexts b) = length (batched_labels b)
            ∧ (1 ≤ length (batched_labels b) ≤ Z.to_nat (batch_size self))%nat)
         batches
  ∧ ∀ (j : nat) b, batches !! j = Some b → (S j < length batches)%nat →
      length (batched_labels b) = Z.to_nat (batch_size self).
Proof.
  intros Hrun Hsize.
  apply epoch_pass_groups in Hrun as (couples & labels & _ & _ & Hgroups).
  set (size := Z.to_nat (batch_size self)) in *.
  set (groups := chunks size (seq 0 (length couples)) []) in *.
  pose proof (chunks_sizes size (seq 0 (length couples)) []
                ltac:(lia) ltac:(simpl; lia)) as Hsizes.
  pose proof (chunks_full size (seq 0 (length couples)) []
                ltac:(simpl; lia)) as Hfull.
  fold groups in Hsizes, Hfull. split.
  - apply Forall_forall. intros b Hb.
    apply list_elem_of_lookup in Hb as [j Hj].
    destruct (Forall2_lookup_r _ _ _ _ _ Hgroups Hj) as (g & Hg & Hbatch).
    apply batch_of_lengths in Hbatch as (-> & -> & ->).
    split; [done|]. split; [done|].
    apply (proj1 (Forall_forall _ _) Hsizes g).
    by eapply list_elem_of_lookup_2.
  - intros j b Hj Hlast.
    destruct (Forall2_lookup_r _ _ _ _ _ Hgroups Hj) as (g & Hg & Hbatch).
    apply batch_of_lengths in Hbatch as (_ & _ & ->).
    apply (Hfull j g Hg). by rewrite (Forall2_length _ _ _ Hgroups).
Qed.

Lemma batches_are_well_formed_witness :
  ∃ self' batches w',
    epoch_pass (generator_of 1 2 (-1) (-1))
      (world_of (zeros 10) (Json two_outfits)) = Done (self', batches) w'
    ∧ Forall (fun b =>
                length (batched_targets b) = length (batched_labels b)
                ∧ length (batched_contexts b) = length (batched_labels b)
                ∧ (1 ≤ length (batched_labels b) ≤ Z.to_nat 2)%nat)
             batches
    ∧ ∀ (j : nat) b, batches !! j = Some b → (S j < length batches)%nat →
        length (batched_labels b) = Z.to_nat 2.
Proof.
  eexists _, _, _. split; [vm_compute; reflexivity|].
  eapply (batches_are_well_formed (generator_of 1 2 (-1) (-1))
            (world_of (zeros 10) (Json two_outfits)));
    [vm_compute; reflexivity | reflexivity].
Defined.

Lemma chunks_zero {A} (xs : list A) :
  chunks 0 xs [] = replicate (length xs) [].
Proof. induction xs as [|x xs IH]; [done|]. simpl. by rewrite IH. Qed.

Lemma batch_of_nil self w targets contexts labels b :
  batch_of self w targets contexts labels [] b → b = empty_batch.
Proof.
  intros (Ht & Hc & Hl). destruct b as [ts cs ls]. simpl in *.
  apply Forall2_nil_inv_l in Ht, Hc, Hl. by subst.
Qed.

(** With a negative batch size the loop never fills a batch: a round
    yields one empty batch for every sample, and no sample at all. *)
Theorem negative_batch_size_yields_empty_batches self w self' batches w' :
  epoch_pass self w = Done (self', batches) w' →
  batch_size self < 0 →
  ∃ couples labels,
    samples self' = Some (couples, labels)
    ∧ batches = replicate (length couples) empty_batch.
Proof.
  intros Hrun Hsize.
  apply epoch_pass_groups in Hrun as (couples & labels & Hs & _ & Hgroups).
  exists couples, labels. split; [done|].
  replace (Z.to_nat (batch_size self)) with 0%nat in Hgroups by lia.
  rewrite chunks_zero, length_seq in Hgroups.
  revert Hgroups. generalize (length couples). intros n. revert batches.
  induction n as [|n IH]; intros batches Hgroups; simpl in *.
  - by apply Forall2_nil_inv_l in Hgroups.
  - apply Forall2_cons_inv_l in Hgroups as (b & rest & Hb & Hrest & ->).
    apply batch_of_nil in Hb as ->. f_equal. by apply IH.
Qed.

Lemma negative_batch_size_yields_empty_batches_witness :
  ∃ self' batches w',
    epoch_pass (generator_of 1 (-2) (-1) (-1))
      (world_of (zeros 10) (Json two_outfits)) = Done (self', batches) w'
    ∧ ∃ couples labels,
        samples self' = Some (couples, labels)
        ∧ batches = replicate (length couples) empty_batch.
Proof.
  eexists _, _, _. split; [vm_compute; reflexivity|].
  eapply (negative_batch_size_yields_empty_batches
            (generator_of 1 (-2) (-1) (-1))
            (world_of (zeros 10) (Json two_outfits)));
    [vm_compute; reflexivity | reflexivity].
Defined.


(** ** A cap below -1 *)

(** Only -1 switches the cap off.  Any other negative cap [-k] is used as
    the end of a slice: [collect_data] drops the last [k] outfits of the
    file, all of them when the file has no more than [k]. *)
Theorem negative_cap_drops_last_outfits self w all :
  files w (dataset_path self) = Json all →
  outfits_count_limit self < -1 →
  ∃ w', collect_data self w
        = Done (set_data (take (length all
                                - Z.to_nat (- outfits_count_limit self)) all)
                         self) w'.
Proof.
  intros Hfile Hcap. unfold collect_data, bind, emit. simpl. rewrite Hfile.
  rewrite bool_decide_eq_true_2 by lia.
  rewrite (proj2 (Z.ltb_lt _ _)) by lia. simpl.
  unfold slice_to. rewrite (proj2 (Z.ltb_lt _ 0)) by lia.
  replace (Z.to_nat (Z.of_nat (length all) + outfits_count_limit self))
    with (length all - Z.to_nat (- outfits_count_limit self))%nat by lia.
  by eexists.
Qed.

Lemma negative_cap_drops_last_outfits_witness :
  ∃ w', collect_data (generator_of 5 10 (-2) (-1))
          (world_of [] (Json three_outfits))
        = Done (set_data [mkOutfit 0 [item_of "a"]]
                  (generator_of 5 10 (-2) (-1))) w'.
Proof.
  apply (negative_cap_drops_last_outfits (generator_of 5 10 (-2) (-1))
           (world_of [] (Json three_outfits)) three_outfits);
    [reflexivity | reflexivity].
Defined.

(** ** The constructor of the wrapper *)

Lemma subscript_world hp key v w w' :
  subscript hp key w = Done v w' → w' = w.
Proof.
  unfold subscript. destruct hp as [h|]; [|discriminate].
  destruct (h !! key); [|discriminate]. unfold ret. by intros [= _ <-].
Qed.

Lemma get_layer_world layers name l w w' :
  get_layer layers name w = Done l w' → w' = w.
Proof.
  unfold get_layer. destruct (filter _ layers); [discriminate|].
  unfold ret. by intros [= _ <-].
Qed.

Lemma multi_gpu_model_world n u w w' :
  multi_gpu_model n w = Done u w' → w' = w.
Proof.
  unfold multi_gpu_model. destruct (_ <? _)%nat; [discriminate|].
  by intros [= <-].
Qed.

Lemma SamplesGenerator_init_Done dp ip neg b um ol sl w g w' :
  SamplesGenerator_init dp ip neg b um ol sl w = Done g w' →
  g = mkGenerator ol sl b neg ip dp um None None None ∧ w' = w.
Proof.
  unfold SamplesGenerator_init. destruct (bool_decide _); [discriminate|].
  unfold ret. by intros [= <- <-].
Qed.

(** The wrapper's constructor reads no dataset: the generator it builds
    has loaded nothing yet, and the only input was the two loads of the
    pretrained network.  Of the hyperparameters only the batch size reaches
    the generator: its number of negative samples is the default 5 and
    its selector the default ['inception']. *)
Theorem constructor_builds_default_generator dp ip b e um ol sl hp w m w' :
  Style2Vec_init dp ip b e um ol sl hp w = Done m w' →
  generator m = mkGenerator ol sl b 5 ip dp "inception" None None None
  ∧ epochs_count m = e
  ∧ io w' = io w ++ [ LoadPretrained "imagenet"; LoadPretrained "imagenet";
                      Print "Style2Vec model has been successfully initialized." ].
Proof.
  unfold Style2Vec_init. intros H. invert_bind H.
  apply ret_Done in H as [<- <-]. simpl.
  apply InceptionV3_Done in Hrun as [_ ->].
  apply InceptionV3_Done in Hrun0 as [_ ->].
  apply subscript_world in Hrun1 as ->.
  apply get_layer_world in Hrun2 as ->.
  apply get_layer_world in Hrun3 as ->.
  apply multi_gpu_model_world in Hrun4 as ->.
  apply SamplesGenerator_init_Done in Hrun5 as [-> ->].
  apply emit_Done in Hrun6 as ->. simpl.
  split; [done|]. split; [done|]. by rewrite <-!app_assoc.
Qed.

Lemma constructor_builds_default_generator_witness :
  ∃ m w',
    Style2Vec_init "train.json" "img/" 8 3 "vgg" 50 (-1) (Some hyperparams)
      (world_of [] NoSuchFile) = Done m w'
    ∧ generator m = mkGenerator 50 (-1) 8 5 "img/" "train.json" "inception"
                      None None None
    ∧ epochs_count m = 3
    ∧ io w' = [] ++ [ LoadPretrained "imagenet"; LoadPretrained "imagenet";
                      Print "Style2Vec model has been successfully initialized." ].
Proof.
  eexists _, _. split; [vm_compute; reflexivity|].
  eapply (constructor_builds_default_generator "train.json" "img/" 8 3 "vgg"
            50 (-1) (Some hyperparams) (world_of [] NoSuchFile)).
  vm_compute. reflexivity.
Defined.

(** The constructor subscripts [hparams] after both networks are loaded:
    with the default [hparams=None] it raises [TypeError], and with a
    dictionary that lacks the fine-tune key it raises [KeyError]. *)
Theorem constructor_needs_fine_tune_key dp ip b e um ol sl w layers :
  pretrained w = Some layers →
  raises (Style2Vec_init dp ip b e um ol sl None w) TypeError
  ∧ ∀ h : Hparams, h !! HP_FINE_TUNE = None →
      raises (Style2Vec_init dp ip b e um ol sl (Some h) w) KeyError.
Proof.
  intros Hnet.
  assert (∀ hp, Style2Vec_init dp ip b e um ol sl hp w
                = (fine_tune <- subscript hp HP_FINE_TUNE ;;
                   let model_target := rename_layers "target_" layers in
                   let model_context := rename_layers "context_" layers in
                   let model_target :=
                     if truthy fine_tune then fine_tune_layers model_target
                     else model_target in
                   let model_context :=
                     if truthy fine_tune then fine_tune_layers model_context
                     else model_context in
                   get_layer model_target "target_last_layer" ;;
                   get_layer model_context "context_last_layer" ;;
                   multi_gpu_model 2 ;;
                   generator <- SamplesGenerator_init dp ip
                                  default_neg_sample_count b
                                  default_underlying_model ol sl ;;
                   emit (Print "Style2Vec model has been successfully initialized.") ;;
                   ret (mkStyle2Vec hp e false model_target model_context
                          generator))
                  (log (LoadPretrained "imagenet")
                     (log (LoadPretrained "imagenet") w))) as Hinit.
  { intros hp. unfold Style2Vec_init, InceptionV3.
    unfold bind at 1 2. unfold emit at 1. simpl. rewrite Hnet.
    unfold bind at 1 2. unfold emit at 1. simpl. rewrite Hnet. reflexivity. }
  split.
  - rewrite Hinit. by eexists _, _.
  - intros h Hkey. rewrite Hinit. unfold bind at 1, subscript.
    rewrite Hkey. by eexists _, _.
Qed.

Lemma constructor_needs_fine_tune_key_witness :
  raises (Style2Vec_init "train.json" "img/" 10 1 "inception" (-1) (-1) None
            (world_of [] NoSuchFile)) TypeError.
Proof.
  eapply (constructor_needs_fine_tune_key "train.json" "img/" 10 1 "inception"
            (-1) (-1) (world_of [] NoSuchFile)).
  reflexivity.
Defined.

(** ** The script outside and inside its [try] block *)

(** The model is built before the [try]: an exception of the constructor is
    handled by nobody, nothing is saved or written, and the interpreter
    leaves the script with status 1. *)
Theorem construction_failure_is_not_handled w e w' :
  Style2Vec_init "../data/label/train_no_dup_out.json" "../data/images/"
    5 5 default_underlying_model 50 default_count_limit (Some hyperparams) w
  = Raised e w' →
  main w = Raised e w' ∧ exit_status (main w) = Some 1.
Proof.
  intros Hinit.
  assert (main w = Raised e w') as Hmain.
  { unfold main. unfold bind at 1.
    change (subscript (Some hyperparams) HP_BATCH_SIZE w) with (Done (HInt 5) w).
    simpl. unfold bind at 1. by rewrite Hinit. }
  by rewrite Hmain.
Qed.

Lemma construction_failure_is_not_handled_witness :
  ∃ e w', main offline_world = Raised e w'
    ∧ io w' = [LoadPretrained "imagenet"]
    ∧ exit_status (main offline_world) = Some 1.
Proof.
  destruct (construction_failure_is_not_handled offline_world
              (mkExn OSError "cannot load the imagenet weights")
              (log (LoadPretrained "imagenet") offline_world))
    as [Hmain Hexit]; [vm_compute; reflexivity|].
  eexists _, _. split; [exact Hmain|]. split; [reflexivity | exact Hexit].
Defined.



(** Where [time.clock] does not exist, the first statement of the [try]
    block raises [AttributeError]: the script never calls [fit], saves the
    untrained model under the error name and reports an error. *)
Theorem missing_clock_skips_training (model : Style2Vec) (w : World) :
  clock w = None →
  writable w ("model" +:+ now w +:+ "_err.h5") = true →
  writable w ("err" +:+ now w +:+ ".txt") = true →
  train_and_save model w
  = Done tt
      (log (Print "Exited with error.")
      (log (WriteFile ("err" +:+ now w +:+ ".txt")
              ["module 'time' has no attribute 'clock'"])
      (log (SaveModel ("model" +:+ now w +:+ "_err.h5")) w))).
Proof.
  intros Hclock Hmodel Herr.
  unfold train_and_save, try_except, bind at 1, time_clock at 1.
  rewrite Hclock.
  unfold bind, save, write_file, emit. rewrite Hmodel. simpl.
  by rewrite Herr.
Qed.

Lemma missing_clock_skips_training_witness :
  ∃ w', train_and_save (model_of (generator_of 1 2 (-1) (-1)))
          (clockless_world (zeros 10) (Json two_outfits)) = Done tt w'
    ∧ io w' = [ SaveModel "model20190101-120000_err.h5";
                WriteFile "err20190101-120000.txt"
                  ["module 'time' has no attribute 'clock'"];
                Print "Exited with error." ].
Proof.
  eexists. split.
  - apply (missing_clock_skips_training
             (model_of (generator_of 1 2 (-1) (-1)))
             (clockless_world (zeros 10) (Json two_outfits)));
      reflexivity.
  - reflexivity.
Defined.

(** The handler is not protected itself: if the model cannot be saved
    under the error name, the [OSError] of that save leaves the script,
    in place of the exception of [fit], and no error file is written. *)
Theorem handler_failure_escapes (model : Style2Vec) (w w1 : World)
    (t : Z) (later : list Z) (e : Exn) :
  clock w = Some (t :: later) →
  fit model (with_clock later w) = Raised e w1 →
  writable w1 ("model" +:+ now w +:+ "_err.h5") = false →
  train_and_save model w = Raised (mkExn OSError "unable to create file") w1
  ∧ exit_status (train_and_save model w) = Some 1.
Proof.
  intros Hclock Hfit Hmodel.
  assert (train_and_save model w
          = Raised (mkExn OSError "unable to create file") w1) as Hrun.
  { unfold train_and_save, try_except, bind at 1, time_clock at 1.
    rewrite Hclock. unfold bind at 1. rewrite Hfit.
    unfold bind, save. by rewrite Hmodel. }
  by rewrite Hrun.
Qed.

Lemma handler_failure_escapes_witness :
  ∃ w1, train_and_save (model_of (generator_of 5 5 50 (-1)))
          (read_only_world [] (Json [mkOutfit 7 [item_of "a"; item_of "b"]]))
        = Raised (mkExn OSError "unable to create file") w1
    ∧ exit_status
        (train_and_save (model_of (generator_of 5 5 50 (-1)))
           (read_only_world [] (Json [mkOutfit 7 [item_of "a"; item_of "b"]])))
      = Some 1.
Proof.
  eexists.
  eapply (handler_failure_escapes _ _ _ 10 [25]);
    [reflexivity | vm_compute; reflexivity | reflexivity].
Defined.

Lemma stored_lengths self w self' w' :
  generate_samples self w = Done self' w' →
  match samples self' with
  | Some (couples, labels) => length labels = length couples
  | None => False
  end.
Proof.
  intros Hrun. apply generate_samples_Done in Hrun
    as (d & built & shuffled & _ & _ & _ & _ & Hs & _).
  rewrite Hs. by rewrite !length_fmap.
Qed.

(** ** The number of batches of a round *)

Lemma chunks_count {A} (size : nat) (xs open : list A) :
  (length open ≤ size)%nat →
  length (chunks size xs open)
  = ((length xs + length open + size) / (size + 1))%nat.
Proof.
  revert open. induction xs as [|x xs IH]; intros open Hopen; simpl.
  - destruct open as [|y open]; simpl in *.
    + rewrite Nat.div_small; lia.
    + replace (S (length open + size))
        with (length open + 1 * (size + 1))%nat by lia.
      rewrite Nat.div_add by lia. rewrite Nat.div_small; lia.
  - destruct (length open <? size)%nat eqn:Hlt.
    + apply Nat.ltb_lt in Hlt. rewrite IH by (rewrite length_app; simpl; lia).
      rewrite length_app. simpl. f_equal. lia.
    + apply Nat.ltb_ge in Hlt. simpl. rewrite IH by (simpl; lia). simpl.
      replace (S (length xs + length open + size))
        with (length xs + 0 + size + 1 * (size + 1))%nat by lia.
      rewrite Nat.div_add by lia. lia.
Qed.

(** A round that runs to its end over [n] samples yields
    [ceil (n / (batch_size + 1))] batches, written here as
    [(n + batch_size) / (batch_size + 1)]: one sample in every
    [batch_size + 1] closes a batch without entering one. *)
Theorem batches_per_round self w self' batches w' :
  epoch_pass self w = Done (self', batches) w' →
  length batches
  = ((length (sample_list self') + Z.to_nat (batch_size self))
     / (Z.to_nat (batch_size self) + 1))%nat.
Proof.
  intros Hrun.
  pose proof (epoch_pass_Done _ _ _ _ _ Hrun)
    as (couples' & labels' & w1 & Hgen & Hs' & _).
  apply stored_lengths in Hgen as Hlen.
  apply epoch_pass_groups in Hrun as (couples & labels & Hs & _ & Hgroups).
  rewrite Hs in Hs'. injection Hs' as <- <-.
  rewrite <-(Forall2_length _ _ _ Hgroups), chunks_count by (simpl; lia).
  rewrite length_seq. simpl. unfold sample_list. rewrite Hs.
  rewrite length_zip. rewrite Hs in Hlen. simpl in Hlen.
  f_equal. lia.
Qed.

Lemma batches_per_round_witness :
  ∃ self' batches w',
    epoch_pass (generator_of 0 2 (-1) (-1))
      (world_of (zeros 10)
         (Json [mkOutfit 7 [item_of "a"; item_of "b"; item_of "c"]]))
    = Done (self', batches) w'
    ∧ length batches
      = ((length (sample_list self') + Z.to_nat 2) / (Z.to_nat 2 + 1))%nat.
Proof.
  eexists _, _, _. split; [vm_compute; reflexivity|].
  eapply (batches_per_round (generator_of 0 2 (-1) (-1))
            (world_of (zeros 10)
               (Json [mkOutfit 7 [item_of "a"; item_of "b"; item_of "c"]]))).
  vm_compute. reflexivity.
Defined.
